(** * Kinbox live email monitor: a shallow embedding of [api/index.py]

    The development follows the source file top to bottom: the Python
    primitives the code relies on ([str.split], [str.lower], [in],
    [str.strip], slicing), then the server resolver, the header decoder,
    the cache store, the folder fetcher, the account aggregator and the
    two query endpoints.

    Modelling conventions.
    - A Python [str] and a Python [bytes] are both modelled by [string];
      a character of a [str] is a code point below 256.
    - A computation that may raise is a value of [pyres]: [Ok v] or
      [Raise e].
    - [time.time()] is an explicit argument (a rational number of seconds).
    - The process-wide dict [memory_cache] is a [gmap string CacheEntry]
      threaded through the functions that touch it.
    - The IMAP server is an oracle record [Server]; every call made on the
      connection is recorded in a trace of [Event]s.
    - Functions of external libraries ([email.header.decode_header],
      [bytes.decode], [hashlib.md5], [str] of an [HTTPException]) are the
      fields of the class [Library], which the code takes as a parameter. *)

From Stdlib Require Import ZArith QArith Lqa Ascii String Sorted Permutation.
From stdpp Require Import gmap strings list fin_maps.

Open Scope string_scope.

(** ** Exceptions and results *)

Inductive exn : Type :=
  | HTTPException (status_code : Z) (detail : string)
  | PyError (kind : string) (msg : string).

Inductive pyres (A : Type) : Type :=
  | Ok (a : A)
  | Raise (e : exn).
Arguments Ok {A} a.
Arguments Raise {A} e.

Definition IndexError : exn := PyError "IndexError" "list index out of range".

(** ** Python string primitives *)

Module Py.

(** [needle in hay] for two strings. *)
Fixpoint contains (needle hay : string) : bool :=
  String.prefix needle hay ||
  match hay with
  | EmptyString => false
  | String _ hay' => contains needle hay'
  end.

(** [c in s] for one character. *)
Fixpoint has_char (c : ascii) (s : string) : bool :=
  match s with
  | EmptyString => false
  | String d s' => Ascii.eqb c d || has_char c s'
  end.

(** [str.lower] on code points below 256: A-Z and the Latin-1 capitals
    (192-222 except the multiplication sign 215) move up by 32. *)
Definition lower_char (c : ascii) : ascii :=
  let n := N_of_ascii c in
  if ((65 <=? n)%N && (n <=? 90)%N)
     || ((192 <=? n)%N && (n <=? 222)%N && negb (n =? 215)%N)
  then ascii_of_N (n + 32) else c.

Fixpoint lower (s : string) : string :=
  match s with
  | EmptyString => EmptyString
  | String c s' => String (lower_char c) (lower s')
  end.

(** [s.split(sep)] for a non-empty separator: the pieces between the
    non-overlapping occurrences of [sep], found left to right.  [skip]
    counts the characters of a matched separator still to be passed. *)
Fixpoint split_go (sep : string) (skip : nat) (s : string) : list string :=
  match s with
  | EmptyString => [EmptyString]
  | String c s' =>
      match skip with
      | S k => split_go sep k s'
      | O =>
          if String.prefix sep s
          then EmptyString :: split_go sep (String.length sep - 1) s'
          else match split_go sep 0 s' with
               | piece :: rest => String c piece :: rest
               | [] => [String c EmptyString]
               end
      end
  end.

Definition split (sep s : string) : list string := split_go sep 0 s.

(** [str.isspace] on code points below 256, and [bytes.isspace]. *)
Definition is_space (c : ascii) : bool :=
  let n := N_of_ascii c in
  ((9 <=? n)%N && (n <=? 13)%N) || ((28 <=? n)%N && (n <=? 32)%N)
  || (n =? 133)%N || (n =? 160)%N.

Definition is_space_bytes (c : ascii) : bool :=
  let n := N_of_ascii c in
  ((9 <=? n)%N && (n <=? 13)%N) || (n =? 32)%N.

(** [s.split()] with no argument: the maximal runs of non-whitespace.
    The boolean returned with the runs of [s] tells whether [s] starts
    inside a run, so that the caller extends that run or opens one. *)
Fixpoint words_go (p : ascii -> bool) (s : string) : bool * list string :=
  match s with
  | EmptyString => (false, [])
  | String c s' =>
      let '(open, ws) := words_go p s' in
      if p c then (false, ws)
      else if open
           then match ws with
                | w :: ws' => (true, String c w :: ws')
                | [] => (true, [String c EmptyString])
                end
           else (true, String c EmptyString :: ws)
  end.

Definition words (p : ascii -> bool) (s : string) : list string :=
  snd (words_go p s).

(** [sep.join(l)]. *)
Fixpoint join (sep : string) (l : list string) : string :=
  match l with
  | [] => EmptyString
  | [w] => w
  | w :: l' => w +:+ sep +:+ join sep l'
  end.

(** [s[:n]]. *)
Fixpoint take (n : nat) (s : string) : string :=
  match n, s with
  | S k, String c s' => String c (take k s')
  | _, _ => EmptyString
  end.

(** [s.lstrip], [s.rstrip] and [s.strip] for a set of characters [p]. *)
Fixpoint lstrip (p : ascii -> bool) (s : string) : string :=
  match s with
  | EmptyString => EmptyString
  | String c s' => if p c then lstrip p s' else s
  end.

Fixpoint rstrip (p : ascii -> bool) (s : string) : string :=
  match s with
  | EmptyString => EmptyString
  | String c s' =>
      match rstrip p s' with
      | EmptyString => if p c then EmptyString else String c EmptyString
      | r => String c r
      end
  end.

Definition strip (p : ascii -> bool) (s : string) : string :=
  rstrip p (lstrip p s).

(** [l[start:]] for a list and a Python integer [start]: a negative
    index counts from the end, and both ends are clamped. *)
Definition slice_from {A : Type} (start : Z) (l : list A) : list A :=
  let len := Z.of_nat (length l) in
  let i := (if start <? 0 then Z.max 0 (start + len) else Z.min start len)%Z in
  drop (Z.to_nat i) l.


End Py.

(** ** Server resolver *)

Definition get_imap_server (email_address : string) : pyres string :=
  match Py.split "@" email_address !! 1%nat with
  | None => Raise IndexError
  | Some piece =>
      let domain := Py.lower piece in
      if Py.contains "gmail" domain then Ok "imap.gmail.com"
      else if Py.contains "yahoo" domain then Ok "imap.mail.yahoo.com"
      else if Py.contains "outlook" domain || Py.contains "hotmail" domain
              || Py.contains "live" domain
      then Ok "outlook.office365.com"
      else if Py.contains "icloud" domain then Ok "imap.mail.me.com"
      else Ok ("imap." +:+ domain)
  end.

(** ** Data model *)

(** One entry of the list the API returns (the dict built at the end of
    the loop of [fetch_messages_from_folder]).  The value under the key
    date is a [str], or an [email.header.Header] object when the raw Date
    header holds 8-bit bytes: [date] is its text and [date_is_header]
    tells which of the two it is. *)
Record Message : Type := {
  uid : string;
  sender : string;
  subject : string;
  date : string;
  folder : string;
  snippet : string;
  date_is_header : bool
}.

Record CacheEntry : Type := {
  data : list Message;
  timestamp : Q
}.

(** What [email.header.decode_header] yields: a list of chunks, each
    either [bytes] or [str], with an optional charset. *)
Inductive HeaderPart : Type :=
  | PartBytes (b : string)
  | PartStr (s : string).

(** A MIME part as the code observes it: its content type and the
    outcome of [get_payload(decode=True)] ([None] when there is none). *)
Record Part : Type := {
  content_type : string;
  payload : pyres (option string)
}.

(** What [email_message.get('Date', '')] yields for a header that is
    present: the header as a [str], or, when the raw header holds 8-bit
    bytes, an [email.header.Header] object (given here by its text). *)
Inductive DateField : Type :=
  | DateText (s : string)
  | DateHeaderObject (text : string).

Definition date_text (d : DateField) : string :=
  match d with
  | DateText s => s
  | DateHeaderObject text => text
  end.

Definition is_header_object (d : DateField) : bool :=
  match d with
  | DateText _ => false
  | DateHeaderObject _ => true
  end.

(** A message parsed by [email.message_from_bytes]: the three headers the
    code reads ([None] when absent), [is_multipart()], the parts in the
    order of [walk()], and the message's own [get_payload(decode=True)]. *)
Record EmailMessage : Type := {
  hdr_From : option string;
  hdr_Subject : option string;
  hdr_Date : option DateField;
  is_multipart : bool;
  walk : list Part;
  get_payload : pyres (option string)
}.

(** The mail server as seen through [imaplib].  A [Some e] in [open_ssl],
    [login] or [close] is the exception the call raises.
    - [list_folders]: [mail.list()], a status and the listing lines (an
      item that is not [bytes] is [None]);
    - [select f]: the status of [mail.select(f)];
    - [search f]: [mail.search(None, 'ALL')] with [f] selected, a status and
      [message_ids[0]] ([None] when it is not [bytes]);
    - [fetch f i]: [mail.fetch(i, '(RFC822)')] with [f] selected, a status
      and the outcome of indexing and parsing [msg_data]. *)
Record Server : Type := {
  open_ssl : string -> Z -> option exn;
  login : string -> string -> option exn;
  list_folders : pyres (string * list (option string));
  select : string -> pyres string;
  search : string -> pyres (string * option string);
  fetch : string -> string -> pyres (string * pyres EmailMessage);
  close : option exn
}.

(** The calls made on the network, in order. *)
Inductive Event : Type :=
  | EvConnect (host : string) (port : Z)
  | EvLogin (user : string)
  | EvList
  | EvSelect (folder : string)
  | EvSearch (folder : string)
  | EvFetch (folder : string) (msg_id : string)
  | EvClose
  | EvLogout.

(** The state shared between requests, and the trace of network calls. *)
Record World : Type := {
  memory_cache : gmap string CacheEntry;
  trace : list Event
}.

Record MessagesResponse : Type := {
  mr_messages : list Message;
  mr_count : nat
}.

Record SearchResponse : Type := {
  sr_messages : list Message;
  sr_count : nat;
  sr_search_term : string
}.

(** ** The error monad *)

#[export] Instance pyres_ret : MRet pyres := fun _ a => Ok a.
#[export] Instance pyres_bind : MBind pyres := fun _ _ f m =>
  match m with
  | Ok a => f a
  | Raise e => Raise e
  end.

(** [mapM]: results in order, stopping at the first exception. *)
Fixpoint py_mapM {A B : Type} (f : A -> pyres B) (l : list A) : pyres (list B) :=
  match l with
  | [] => Ok []
  | x :: l' => y ← f x; ys ← py_mapM f l'; Ok (y :: ys)
  end.

(** ** Address extraction *)

(** The group of [<([^>]+)>] when it is tried right after a ["<"]: the
    longest run without [">"], which must be non-empty and be followed by
    [">"]. *)
Fixpoint until_gt (s : string) : option string :=
  match s with
  | EmptyString => None
  | String c s' =>
      if Ascii.eqb c ">" then Some EmptyString
      else match until_gt s' with
           | Some g => Some (String c g)
           | None => None
           end
  end.

(** [re.search(r'<([^>]+)>', s)]: the group of the leftmost match. *)
Fixpoint search_angle (s : string) : option string :=
  match s with
  | EmptyString => None
  | String c s' =>
      if Ascii.eqb c "<"
      then match until_gt s' with
           | Some (String d g) => Some (String d g)
           | _ => search_angle s'
           end
      else search_angle s'
  end.

Definition extract_email_address (sender_field : string) : string :=
  if Py.has_char "<" sender_field && Py.has_char ">" sender_field
  then match search_angle sender_field with
       | Some g => Py.strip Py.is_space g
       | None => Py.strip Py.is_space sender_field
       end
  else Py.strip Py.is_space sender_field.

(** ** Cache store *)

Definition CACHE_TTL : Q := 600.

Definition get_from_cache (now : Q) (key : string)
    (cache : gmap string CacheEntry)
  : option (list Message) * gmap string CacheEntry :=
  match cache !! key with
  | Some cached_data =>
      if Qlt_le_dec (now - timestamp cached_data) CACHE_TTL
      then (Some (data cached_data), cache)
      else (None, delete key cache)
  | None => (None, cache)
  end.

Definition set_cache (now : Q) (key : string) (d : list Message)
    (cache : gmap string CacheEntry) : gmap string CacheEntry :=
  <[key := {| data := d; timestamp := now |}]> cache.

(** ** Sorting *)

(** The order that [l.sort(key=lambda x: x.get('date', ''), reverse=True)]
    gives when it succeeds: a stable sort, largest key first, keys
    compared as strings (code point by code point); elements with equal
    keys keep their order.  [sort_messages] below tells when it raises. *)
Fixpoint insert_desc (m : Message) (l : list Message) : list Message :=
  match l with
  | [] => [m]
  | y :: ys =>
      if String.ltb (date m) (date y) then y :: insert_desc m ys
      else m :: y :: ys
  end.

Definition sort_by_date_desc (l : list Message) : list Message :=
  foldr insert_desc [] l.

(** ** External libraries *)

(** The library functions the code calls and this development keeps
    abstract:
    - [decode_header s]: [email.header.decode_header(s)];
    - [bytes_decode enc b]: [b.decode(enc)], which raises on an unknown
      charset or on invalid input;
    - [utf8_ignore b]: [b.decode('utf-8', errors='ignore')], total;
    - [md5_hexdigest s]: [hashlib.md5(s.encode()).hexdigest()];
    - [http_exception_str c d]: [str(HTTPException(status_code=c, detail=d))];
    - [sort_type_error kinds]: the text of the [TypeError] that [list.sort]
      raises when it compares a [Header] key, which names the types of
      the two keys it failed on; [kinds] tells, key by key, which are
      [Header] objects. *)
Class Library : Type := {
  decode_header : string -> pyres (list (HeaderPart * option string));
  bytes_decode : string -> string -> pyres string;
  utf8_ignore : string -> string;
  md5_hexdigest : string -> string;
  http_exception_str : Z -> string -> string;
  sort_type_error : list bool -> string
}.

Section Code.

Context `{Lib : Library}.

(** [str(e)]. *)
Definition str_exn (e : exn) : string :=
  match e with
  | HTTPException c d => http_exception_str c d
  | PyError _ msg => msg
  end.

(** *** Header decoder *)

(** The loop of [decode_mime_words], [result] being the accumulator. *)
Fixpoint decode_parts (decoded_parts : list (HeaderPart * option string))
    (result : string) : pyres string :=
  match decoded_parts with
  | [] => Ok result
  | (PartBytes b, Some (String c enc)) :: rest =>
      t ← bytes_decode (String c enc) b; decode_parts rest (result +:+ t)
  | (PartBytes b, _) :: rest =>
      decode_parts rest (result +:+ utf8_ignore b)
  | (PartStr t, _) :: rest => decode_parts rest (result +:+ t)
  end.

(** The body of the [try]. *)
Definition decode_mime_words_try (s : string) : pyres string :=
  decoded_parts ← decode_header s; decode_parts decoded_parts EmptyString.

Definition decode_mime_words (s : string) : pyres string :=
  match decode_mime_words_try s with
  | Ok result => Ok result
  | Raise _ => Ok s
  end.

Definition get_cache_key (email folder : string) : string :=
  md5_hexdigest (email +:+ ":" +:+ folder).

(** *** Connection *)

Definition connect_failure (e : exn) : exn :=
  HTTPException 401 ("Failed to connect to email server: " +:+ str_exn e).

(** The session handle is the server itself, so the result carries no
    value; the events are the calls made, in order. *)
Definition connect_to_imap (srv : Server) (email_address password : string)
  : pyres unit * list Event :=
  match get_imap_server email_address with
  | Raise e => (Raise e, [])
  | Ok server =>
      match open_ssl srv server 993 with
      | Some e => (Raise (connect_failure e), [EvConnect server 993])
      | None =>
          match login srv email_address password with
          | Some e =>
              (Raise (connect_failure e),
               [EvConnect server 993; EvLogin email_address])
          | None => (Ok (), [EvConnect server 993; EvLogin email_address])
          end
      end
  end.

(** *** Folder fetcher *)

(** The loop over [email_message.walk()]. *)
Fixpoint scan_parts (parts : list Part) : string :=
  match parts with
  | [] => EmptyString
  | part :: rest =>
      if String.eqb (content_type part) "text/plain"
      then match payload part with
           | Ok (Some (String c b)) =>
               Py.take 200 (utf8_ignore (String c b))
           | _ => scan_parts rest
           end
      else scan_parts rest
  end.

Definition raw_snippet (email_message : EmailMessage) : string :=
  if is_multipart email_message then scan_parts (walk email_message)
  else match get_payload email_message with
       | Ok (Some (String c b)) => Py.take 200 (utf8_ignore (String c b))
       | _ => EmptyString
       end.

(** [' '.join(snippet.split())[:200]] when [snippet] is not empty, the
    empty string otherwise. *)
Definition clean_snippet (snippet : string) : string :=
  match snippet with
  | EmptyString => EmptyString
  | _ => Py.take 200 (Py.join " " (Py.words Py.is_space snippet))
  end.

(** The body of the inner [try]: [Ok None] is the [continue] taken on a
    status other than OK. *)
Definition process_message_try (srv : Server) (folder_name msg_id : string)
  : pyres (option Message) :=
  '(status, msg_data) ← fetch srv folder_name msg_id;
  if negb (String.eqb status "OK") then Ok None
  else
    email_message ← msg_data;
    sender_v ← decode_mime_words (default EmptyString (hdr_From email_message));
    subject_v ← decode_mime_words (default EmptyString (hdr_Subject email_message));
    let date_str := default (DateText EmptyString) (hdr_Date email_message) in
    let snippet_v := clean_snippet (raw_snippet email_message) in
    uid_v ← bytes_decode "utf-8" msg_id;
    Ok (Some {| uid := uid_v; sender := sender_v; subject := subject_v;
                date := date_text date_str; folder := folder_name;
                snippet := snippet_v;
                date_is_header := is_header_object date_str |}).

(** One iteration of the loop: the message appended, if any. *)
Definition process_message (srv : Server) (folder_name msg_id : string)
  : option Message :=
  match process_message_try srv folder_name msg_id with
  | Ok r => r
  | Raise _ => None
  end.

(** [ids[-limit:] if len(ids) > limit else ids]. *)
Definition recent_ids (limit : Z) (ids : list string) : list string :=
  if (limit <? Z.of_nat (length ids))%Z then Py.slice_from (- limit) ids
  else ids.

(** The [for] loop, appending to [messages]. *)
Definition fetch_loop (srv : Server) (folder_name : string)
    (ids : list string) : list Message :=
  foldl (fun messages msg_id =>
           match process_message srv folder_name msg_id with
           | Some m => (messages ++ [m])%list
           | None => messages
           end) [] ids.

Definition fetch_messages_from_folder (srv : Server) (folder_name : string)
    (limit : Z) : list Message * list Event :=
  match select srv folder_name with
  | Raise _ => ([], [EvSelect folder_name])
  | Ok status =>
      if negb (String.eqb status "OK") then ([], [EvSelect folder_name])
      else
        match search srv folder_name with
        | Raise _ => ([], [EvSelect folder_name; EvSearch folder_name])
        | Ok (status', message_ids) =>
            if negb (String.eqb status' "OK")
            then ([], [EvSelect folder_name; EvSearch folder_name])
            else
              match message_ids with
              | None => ([], [EvSelect folder_name; EvSearch folder_name])
              | Some raw =>
                  let ids := Py.words Py.is_space_bytes raw in
                  let todo := rev (recent_ids limit ids) in
                  (fetch_loop srv folder_name todo,
                   ([EvSelect folder_name; EvSearch folder_name]
                      ++ map (EvFetch folder_name) todo)%list)
              end
        end
  end.

(** *** Account aggregator *)

Definition common_folders : list string :=
  ["INBOX"; "SPAM"; "Junk"; "PROMOTIONS"; "Promotions"; "Sent"; "Drafts"].

Definition fallback_folders : list string := ["INBOX"; "SPAM"; "Junk"].

(** The double quote character, and the separator of a listing line: a
    space, a quoted slash and a space. *)
Definition dquote : ascii := ascii_of_N 34.

Definition list_separator : string :=
  String " " (String dquote (String "/" (String dquote (String " " EmptyString)))).

(** The folder name of one listing line: the line decoded, split at
    [list_separator], the last piece taken and stripped of double
    quotes. *)
Definition folder_name_of (item : option string) : pyres string :=
  match item with
  | None => Raise (PyError "AttributeError" "no attribute 'decode'")
  | Some b =>
      line ← bytes_decode "utf-8" b;
      Ok (Py.strip (Ascii.eqb dquote)
            (default EmptyString (last (Py.split list_separator line))))
  end.

(** The value of [folders_to_check] after the inner [try] around
    [mail.list()]. *)
Definition folders_to_check (listing : pyres (string * list (option string)))
  : list string :=
  match listing with
  | Raise _ => fallback_folders
  | Ok (status, folders) =>
      if String.eqb status "OK"
      then match py_mapM folder_name_of folders with
           | Raise _ => fallback_folders
           | Ok available_folders =>
               match filter (fun f => f ∈ available_folders) common_folders with
               | [] => take 5 available_folders
               | matched => matched
               end
           end
      else common_folders
  end.

(** The loop over the folders, with a limit of 30 each. *)
Fixpoint fetch_folders (srv : Server) (folders : list string)
  : list Message * list Event :=
  match folders with
  | [] => ([], [])
  | f :: rest =>
      let '(folder_messages, evs) := fetch_messages_from_folder srv f 30 in
      let '(more, evs') := fetch_folders srv rest in
      ((folder_messages ++ more)%list, (evs ++ evs')%list)
  end.

(** The [finally] clause: [logout] is not reached when [close] raises. *)
Definition release (srv : Server) : list Event :=
  match close srv with
  | Some _ => [EvClose]
  | None => [EvClose; EvLogout]
  end.

(** [if cached_data:] holds for a non-empty list only. *)
Definition truthy (cached_data : option (list Message)) : bool :=
  match cached_data with
  | Some (_ :: _) => true
  | _ => false
  end.

(** [all_messages.sort(key=lambda x: x.get('date', ''), reverse=True)]
    in place.  Two [str] keys compare as strings; a [Header] key compares
    with nothing, and every key of a list of two or more is compared at
    least once: the sort raises [TypeError] exactly when the list has two
    or more messages and the date of one is a [Header] object. *)
Definition sort_messages (all_messages : list Message)
  : pyres (list Message) :=
  if Nat.leb 2 (length all_messages) && existsb date_is_header all_messages
  then Raise (PyError "TypeError"
                (sort_type_error (map date_is_header all_messages)))
  else Ok (sort_by_date_desc all_messages).

(** [t_get] and [t_set] are the readings of [time.time()] in
    [get_from_cache] and in [set_cache].  [HTTPException] is a subclass of
    [Exception], so the [except Exception] of this function also catches
    the error 401 raised by [connect_to_imap] and wraps it. *)
Definition fetch_messages_from_account (srv : Server) (t_get t_set : Q)
    (email_address password : string) (w : World)
  : pyres (list Message) * World :=
  let cache_key := get_cache_key email_address "all" in
  let '(cached_data, cache) :=
    get_from_cache t_get cache_key (memory_cache w) in
  if truthy cached_data
  then (Ok (default [] cached_data),
        {| memory_cache := cache; trace := trace w |})
  else
    match connect_to_imap srv email_address password with
    | (Raise e, evs) =>
        (Raise (HTTPException 500
                  ("Error fetching messages: " +:+ str_exn e)),
         {| memory_cache := cache; trace := (trace w ++ evs)%list |})
    | (Ok _, evs) =>
        let folders := folders_to_check (list_folders srv) in
        let '(all_messages, evs') := fetch_folders srv folders in
        match sort_messages all_messages with
        | Raise e =>
            (Raise (HTTPException 500
                      ("Error fetching messages: " +:+ str_exn e)),
             {| memory_cache := cache;
                trace := (trace w ++ evs ++ [EvList] ++ evs'
                            ++ release srv)%list |})
        | Ok sorted =>
            (Ok sorted,
             {| memory_cache := set_cache t_set cache_key sorted cache;
                trace := (trace w ++ evs ++ [EvList] ++ evs'
                            ++ release srv)%list |})
        end
    end.

(** *** Query layer *)

Definition get_messages (srv : Server) (t_get t_set : Q)
    (email_address password : string) (w : World)
  : pyres MessagesResponse * World :=
  match fetch_messages_from_account srv t_get t_set email_address password w with
  | (Ok messages, w') =>
      (Ok {| mr_messages := messages; mr_count := length messages |}, w')
  | (Raise (HTTPException c d), w') => (Raise (HTTPException c d), w')
  | (Raise e, w') =>
      (Raise (HTTPException 500 ("Unexpected error: " +:+ str_exn e)), w')
  end.

(** The test of the filter loop of [search_messages]. *)
Definition sender_matches (sender_lower : string) (message : Message) : bool :=
  let message_sender := Py.lower (sender message) in
  let sender_email := Py.lower (extract_email_address message_sender) in
  Py.contains sender_lower message_sender
  || Py.contains sender_lower sender_email.

(** [sender_param] is [None] when the request carries no [sender]. *)
Definition search_messages (srv : Server) (t_get t_set : Q)
    (email_address password : string) (sender_param : option string)
    (w : World) : pyres SearchResponse * World :=
  match sender_param with
  | None | Some EmptyString =>
      (Raise (HTTPException 400 "Sender parameter is required"), w)
  | Some sender_term =>
      match fetch_messages_from_account srv t_get t_set email_address password w with
      | (Ok all_messages, w') =>
          let filtered_messages :=
            filter (fun m => sender_matches (Py.lower sender_term) m)
                   all_messages in
          (Ok {| sr_messages := filtered_messages;
                 sr_count := length filtered_messages;
                 sr_search_term := sender_term |}, w')
      | (Raise (HTTPException c d), w') => (Raise (HTTPException c d), w')
      | (Raise e, w') =>
          (Raise (HTTPException 500 ("Search error: " +:+ str_exn e)), w')
      end
  end.

End Code.

(** ** Predicates used in the statements *)

(** The provider table of the resolver, applied to a lower-cased domain. *)
Definition provider_of (domain : string) : string :=
  if Py.contains "gmail" domain then "imap.gmail.com"
  else if Py.contains "yahoo" domain then "imap.mail.yahoo.com"
  else if Py.contains "outlook" domain then "outlook.office365.com"
  else if Py.contains "hotmail" domain then "outlook.office365.com"
  else if Py.contains "live" domain then "outlook.office365.com"
  else if Py.contains "icloud" domain then "imap.mail.me.com"
  else "imap." +:+ domain.

(** The domain in the words of the specification: what follows the first
    occurrence of [c] (the at sign) in the address. *)
Fixpoint after_first (c : ascii) (s : string) : string :=
  match s with
  | EmptyString => EmptyString
  | String d s' => if Ascii.eqb c d then s' else after_first c s'
  end.


(** [runs_ok prev s]: every whitespace character of [s] is a space that
    stands between two non-whitespace characters; [prev] tells whether the
    character before [s] is a non-whitespace one. *)
Fixpoint runs_ok (prev : bool) (s : string) : bool :=
  match s with
  | EmptyString => prev
  | String c s' =>
      if Py.is_space c
      then Ascii.eqb c " " && prev && runs_ok false s'
      else runs_ok true s'
  end.

(** A string whose whitespace runs are collapsed: empty, or made of
    non-whitespace runs separated by exactly one space, with no whitespace
    at either end. *)
Definition collapsed (s : string) : bool :=
  match s with
  | EmptyString => true
  | _ => runs_ok false s
  end.

Definition is_connect (ev : Event) : bool :=
  match ev with
  | EvConnect _ _ => true
  | _ => false
  end.

(** The number of connections opened in a trace. *)
Definition count_connects (evs : list Event) : nat :=
  length (List.filter is_connect evs).

(** The status code of a failure, if the result is an HTTP error. *)
Definition http_status {A : Type} (r : pyres A) : option Z :=
  match r with
  | Raise (HTTPException c _) => Some c
  | _ => None
  end.

(** The sender test in the words of the specification: the lower-cased
    sender field, or the lower-cased address extracted from the sender
    field, contains the lower-cased term. *)
Definition spec_sender_matches (sender_term : string) (m : Message) : bool :=
  Py.contains (Py.lower sender_term) (Py.lower (sender m))
  || Py.contains (Py.lower sender_term)
       (Py.lower (extract_email_address (sender m))).

(** The folder choice in the words of the specification for a listing
    that succeeded with the folder names [available]. *)
Definition spec_listed_choice (available : list string) : list string :=
  match filter (fun f => f ∈ available) common_folders with
  | [] => take 5 available
  | matched => matched
  end.



(** ** Sample inputs *)

(** A stand-in library for evaluation on ASCII inputs without encoded
    words, where every decoder is the identity.  The digest and the text
    of an [HTTPException] and of the sort's [TypeError] are stand-ins as
    well. *)
Definition ascii_library : Library := {|
  decode_header := fun s => Ok [(PartStr s, None)];
  bytes_decode := fun _ b => Ok b;
  utf8_ignore := fun b => b;
  md5_hexdigest := fun s => s;
  http_exception_str := fun _ d => d;
  sort_type_error := fun _ => "'<' not supported between instances of 'Header' and 'str'"
|}.

Definition plain_message (date_str body : string) : EmailMessage := {|
  hdr_From := Some "Alice <a@x.com>";
  hdr_Subject := Some "hello";
  hdr_Date := Some (DateText date_str);
  is_multipart := false;
  walk := [];
  get_payload := Ok (Some body)
|}.

Definition inbox_line : string :=
  "(\HasNoChildren)" +:+ list_separator
    +:+ String dquote ("INBOX" +:+ String dquote EmptyString).

(** A server with one folder, INBOX, holding three messages. *)
Definition sample_server : Server := {|
  open_ssl := fun _ _ => None;
  login := fun _ _ => None;
  list_folders := Ok ("OK", [Some inbox_line]);
  select := fun f => if String.eqb f "INBOX" then Ok "OK" else Ok "NO";
  search := fun _ => Ok ("OK", Some "1 2 3");
  fetch := fun _ i =>
    if String.eqb i "1" then Ok ("OK", Ok (plain_message "03 Jan" "first"))
    else if String.eqb i "2" then Ok ("OK", Ok (plain_message "25 Dec" "second"))
    else if String.eqb i "3" then Ok ("OK", Ok (plain_message "9 Feb" "third"))
    else Ok ("NO", Raise (PyError "TypeError" "not subscriptable"));
  close := None
|}.

(** A server that accepts the connection and refuses the login. *)
Definition refusing_server (cause : exn) : Server := {|
  open_ssl := fun _ _ => None;
  login := fun _ _ => Some cause;
  list_folders := Ok ("OK", []);
  select := fun _ => Ok "NO";
  search := fun _ => Ok ("NO", None);
  fetch := fun _ _ => Ok ("NO", Raise (PyError "TypeError" "not subscriptable"));
  close := None
|}.


Definition empty_world : World := {| memory_cache := ∅; trace := [] |}.

(** A world whose cache holds [d] for the account, stored at time [t]. *)
Definition cached_world `{Library} (email_address : string)
    (d : list Message) (t : Q) : World := {|
  memory_cache := set_cache t (get_cache_key email_address "all") d ∅;
  trace := []
|}.

Definition message_dated (d : string) : Message := {|
  uid := "1"; sender := "Alice <a@x.com>"; subject := "hello";
  date := d; folder := "INBOX"; snippet := EmptyString;
  date_is_header := false
|}.

(** ** Remaining endpoints *)

Record RootResponse : Type := {
  root_message : string;
  root_status : string
}.

Definition root : RootResponse := {|
  root_message := "Kinbox Live Email Monitor API";
  root_status := "active"
|}.

Record CronResponse : Type := {
  cron_message : string;
  cron_timestamp : string
}.

(** [now_iso] is [datetime.now(timezone.utc).isoformat()]. *)
Definition cron_refresh (now_iso : string) : CronResponse := {|
  cron_message := "Cron job executed";
  cron_timestamp := now_iso
|}.

Record HealthResponse : Type := {
  health_status : string;
  health_timestamp : string;
  cache_size : nat
}.

(** [cache_size] is [len(memory_cache)]: every entry counts, expired or
    not. *)
Definition health_check (now_iso : string) (w : World) : HealthResponse := {|
  health_status := "healthy";
  health_timestamp := now_iso;
  cache_size := size (memory_cache w)
|}.

(** ** Further predicates *)

(** [chunk_decodes chunk t]: the loop of [decode_mime_words] adds [t] to
    the result for [chunk]. *)
Definition chunk_decodes `{Lib : Library} (chunk : HeaderPart * option string)
    (t : string) : Prop :=
  match chunk with
  | (PartBytes b, Some (String c enc)) => bytes_decode (String c enc) b = Ok t
  | (PartBytes b, _) => t = utf8_ignore b
  | (PartStr u, _) => t = u
  end.

(** A part the snippet loop passes over: not text/plain, or without a
    non-empty payload. *)
Definition part_passed_over (part : Part) : Prop :=
  String.eqb (content_type part) "text/plain" = false
  \/ (forall c b, payload part <> Ok (Some (String c b))).

(** [substring_of a s]: [a] occurs in [s]. *)
Definition substring_of (a s : string) : Prop :=
  exists pre post, s = pre +:+ a +:+ post.

(** A part of type text/plain with the payload [body]. *)
Definition text_part (body : string) : Part := {|
  content_type := "text/plain";
  payload := Ok (Some body)
|}.

Definition html_part (body : string) : Part := {|
  content_type := "text/html";
  payload := Ok (Some body)
|}.

(** A server like [sample_server] whose folder SPAM cannot be selected
    and whose listing names INBOX and SPAM. *)
Definition two_folder_server : Server := {|
  open_ssl := fun _ _ => None;
  login := fun _ _ => None;
  list_folders :=
    Ok ("OK", [Some inbox_line;
               Some ("(\HasNoChildren)" +:+ list_separator
                       +:+ String dquote ("SPAM" +:+ String dquote EmptyString))]);
  select := select sample_server;
  search := search sample_server;
  fetch := fetch sample_server;
  close := Some (PyError "error" "connection reset")
|}.

(** A stand-in library that reports every header as a text chunk followed
    by a bytes chunk in a charset [bytes.decode] does not know. *)
Definition unknown_charset_library : Library := {|
  decode_header := fun s => Ok [(PartStr "Re: ", None); (PartBytes s, Some "x-unknown")];
  bytes_decode := fun enc b =>
    if String.eqb enc "utf-8" then Ok b
    else Raise (PyError "LookupError" "unknown encoding");
  utf8_ignore := fun b => b;
  md5_hexdigest := fun s => s;
  http_exception_str := fun _ d => d;
  sort_type_error := fun _ => "'<' not supported between instances of 'Header' and 'str'"
|}.

(** A message whose raw Date header holds an 8-bit byte, so that the
    parsed date is a [Header] object. *)
Definition header_date_message : EmailMessage := {|
  hdr_From := Some "Bob <b@y.org>";
  hdr_Subject := Some "hello";
  hdr_Date := Some (DateHeaderObject "Mon, 1 Jan 2024");
  is_multipart := false;
  walk := [];
  get_payload := Ok (Some "body")
|}.

(** A server whose INBOX holds two messages, the second with such a
    date. *)
Definition header_date_server : Server := {|
  open_ssl := fun _ _ => None;
  login := fun _ _ => None;
  list_folders := Ok ("OK", [Some inbox_line]);
  select := fun _ => Ok "OK";
  search := fun _ => Ok ("OK", Some "1 2");
  fetch := fun _ i =>
    if String.eqb i "1" then Ok ("OK", Ok (plain_message "03 Jan" "first"))
    else Ok ("OK", Ok header_date_message);
  close := None
|}.

(** A stand-in library that reports every header as three chunks: a text
    chunk, the header as bytes without a charset, and the header as bytes
    in UTF-8. *)
Definition three_chunk_library : Library := {|
  decode_header := fun s =>
    Ok [(PartStr "Re: ", None); (PartBytes s, None); (PartBytes s, Some "utf-8")];
  bytes_decode := fun _ b => Ok ("<" +:+ b +:+ ">");
  utf8_ignore := fun b => "[" +:+ b +:+ "]";
  md5_hexdigest := fun s => s;
  http_exception_str := fun _ d => d;
  sort_type_error := fun _ => "'<' not supported between instances of 'Header' and 'str'"
|}.

(** ** Sanity checks of the primitives *)

Example resolve_gmail : get_imap_server "a@gmail.com" = Ok "imap.gmail.com".
Proof. reflexivity. Qed.

Example split_listing_line :
  Py.split list_separator inbox_line
  = ["(\HasNoChildren)"; String dquote ("INBOX" +:+ String dquote EmptyString)].
Proof. reflexivity. Qed.

Example join_words : Py.join " " (Py.words Py.is_space "  a  b c ") = "a b c".
Proof. reflexivity. Qed.

Example slice_last_two : Py.slice_from (-2) [1; 2; 3; 4] = [3; 4].
Proof. reflexivity. Qed.

Example slice_minus_zero : Py.slice_from (- 0) [1; 2; 3; 4] = [1; 2; 3; 4].
Proof. reflexivity. Qed.

Example lower_mixed : Py.lower "MyOwn.ORG" = "myown.org".
Proof. reflexivity. Qed.

Example words_of_search_answer :
  Py.words Py.is_space_bytes "1 2  3" = ["1"; "2"; "3"].
Proof. reflexivity. Qed.

Example recent_ids_last_two : recent_ids 2 ["1"; "2"; "3"] = ["2"; "3"].
Proof. reflexivity. Qed.

Example collapsed_single_spaces : collapsed "a b c" = true.
Proof. reflexivity. Qed.

Example collapsed_rejects_double_space : collapsed "a  b" = false.
Proof. reflexivity. Qed.

Example collapsed_rejects_leading_space : collapsed " a" = false.
Proof. reflexivity. Qed.

Example collapsed_rejects_trailing_space : collapsed "a " = false.
Proof. reflexivity. Qed.

Example collapsed_rejects_tab :
  collapsed (String "a" (String (ascii_of_N 9) "b")) = false.
Proof. reflexivity. Qed.

Example clean_snippet_collapses :
  clean_snippet (String " " (String "a" (String (ascii_of_N 10) "  b "))) = "a b".
Proof. reflexivity. Qed.

Example extract_angle : extract_email_address "Alice <a@x.com>" = "a@x.com".
Proof. reflexivity. Qed.

Example extract_plain : extract_email_address " a@x.com " = "a@x.com".
Proof. reflexivity. Qed.

Example extract_skips_empty_brackets : extract_email_address "<> <b@y>" = "b@y".
Proof. reflexivity. Qed.

Example sample_run :
  let '(r, w) := @fetch_messages_from_account ascii_library sample_server 0 0
                   "a@gmail.com" "pw" empty_world in
  (match r with Ok l => map date l | Raise _ => [] end) = ["9 Feb"; "25 Dec"; "03 Jan"]
  /\ trace w = [EvConnect "imap.gmail.com" 993; EvLogin "a@gmail.com"; EvList;
                EvSelect "INBOX"; EvSearch "INBOX";
                EvFetch "INBOX" "3"; EvFetch "INBOX" "2"; EvFetch "INBOX" "1";
                EvClose; EvLogout].
Proof. vm_compute. split; reflexivity. Qed.

(** ** Properties of the string primitives *)

Lemma str_app_nil (s : string) : EmptyString +:+ s = s.
Proof. reflexivity. Qed.

Lemma str_app_cons (c : ascii) (u s : string) :
  String c u +:+ s = String c (u +:+ s).
Proof. reflexivity. Qed.

Lemma prefix_empty (s : string) : String.prefix EmptyString s = true.
Proof. destruct s; reflexivity. Qed.

Lemma prefix_cons (a b : ascii) (s1 s2 : string) :
  String.prefix (String a s1) (String b s2)
  = Ascii.eqb a b && String.prefix s1 s2.
Proof.
  simpl. destruct (ascii_dec a b) as [->|Hne].
  - now rewrite Ascii.eqb_refl.
  - apply Ascii.eqb_neq in Hne. now rewrite Hne.
Qed.

Lemma prefix_spec (p s : string) :
  String.prefix p s = true <-> exists post, s = p +:+ post.
Proof.
  revert s. induction p as [|a p IH]; intros s.
  - rewrite prefix_empty. split; [exists s; reflexivity | reflexivity].
  - destruct s as [|b s].
    + simpl. split; [discriminate | intros [post Hpost]; discriminate].
    + rewrite prefix_cons, andb_true_iff, Ascii.eqb_eq, IH. split.
      * intros [-> [post ->]]. exists post. reflexivity.
      * intros [post Hpost]. simpl in Hpost. injection Hpost as -> ->. eauto.
Qed.

(** [Py.contains] is the substring test. *)
Lemma contains_spec (needle hay : string) :
  Py.contains needle hay = true
  <-> exists pre post, hay = pre +:+ needle +:+ post.
Proof.
  induction hay as [|c hay IH]; cbn [Py.contains].
  - rewrite orb_false_r. split.
    + intros Hp. apply prefix_spec in Hp as [post Hpost].
      exists EmptyString, post. exact Hpost.
    + intros [pre [post Heq]]. destruct pre; [|discriminate].
      apply prefix_spec. exists post. exact Heq.
  - rewrite orb_true_iff, IH. split.
    + intros [Hp | [pre [post ->]]].
      * apply prefix_spec in Hp as [post Hpost]. exists EmptyString, post. exact Hpost.
      * exists (String c pre), post. reflexivity.
    + intros [pre [post Heq]]. destruct pre as [|d pre].
      * left. apply prefix_spec. exists post. exact Heq.
      * right. simpl in Heq. injection Heq as -> ->. eauto.
Qed.

Lemma split_go_nonempty (sep : string) (k : nat) (s : string) :
  Py.split_go sep k s <> [].
Proof.
  revert k. induction s as [|c s IH]; intros k; cbn [Py.split_go];
    [discriminate|].
  destruct k; [|apply IH].
  destruct (String.prefix sep (String c s)); [discriminate|].
  destruct (Py.split_go sep 0 s); discriminate.
Qed.

Lemma split_at_none (u : string) :
  Py.has_char "@" u = false -> Py.split "@" u = [u].
Proof.
  unfold Py.split. induction u as [|c u IH]; intros Hu; [reflexivity|].
  cbn [Py.has_char] in Hu. apply orb_false_iff in Hu as [Hc Hu].
  cbn [Py.split_go]. rewrite prefix_cons, Hc. cbn [andb].
  now rewrite (IH Hu).
Qed.

Lemma split_at_cons (u s : string) :
  Py.has_char "@" u = false ->
  Py.split "@" (u +:+ String "@" s) = u :: Py.split "@" s.
Proof.
  unfold Py.split. induction u as [|c u IH]; intros Hu.
  - rewrite str_app_nil. cbn [Py.split_go].
    rewrite prefix_cons, prefix_empty. reflexivity.
  - cbn [Py.has_char] in Hu. apply orb_false_iff in Hu as [Hc Hu].
    rewrite str_app_cons. cbn [Py.split_go]. rewrite prefix_cons, Hc.
    cbn [andb]. now rewrite (IH Hu).
Qed.

Lemma has_char_decompose (c : ascii) (s : string) :
  Py.has_char c s = true ->
  exists u r, s = u +:+ String c r /\ Py.has_char c u = false.
Proof.
  induction s as [|d s IH]; [discriminate|]. cbn [Py.has_char].
  destruct (Ascii.eqb c d) eqn:Hcd.
  - apply Ascii.eqb_eq in Hcd as <-. intros _. exists EmptyString, s. split; reflexivity.
  - cbn [orb]. intros Hs. destruct (IH Hs) as [u [r [-> Hu]]].
    exists (String d u), r. split; [reflexivity|].
    cbn [Py.has_char]. now rewrite Hcd, Hu.
Qed.

(** ** Server resolver *)

Lemma get_imap_server_of_piece (addr piece : string) :
  Py.split "@" addr !! 1%nat = Some piece ->
  get_imap_server addr = Ok (provider_of (Py.lower piece)).
Proof.
  intros Hp. unfold get_imap_server, provider_of. rewrite Hp.
  destruct (Py.contains "gmail" _); [reflexivity|].
  destruct (Py.contains "yahoo" _); [reflexivity|].
  destruct (Py.contains "outlook" _); [reflexivity|].
  destruct (Py.contains "hotmail" _); [reflexivity|].
  destruct (Py.contains "live" _); [reflexivity|].
  destruct (Py.contains "icloud" _); reflexivity.
Qed.

(** The resolver never fails on an address that holds an at sign. *)
Lemma get_imap_server_total_with_at (addr : string) :
  Py.has_char "@" addr = true -> exists host, get_imap_server addr = Ok host.
Proof.
  intros Ha. destruct (has_char_decompose _ _ Ha) as [u [r [-> Hu]]].
  destruct (Py.split "@" r) as [|piece l] eqn:Hr.
  - now apply split_go_nonempty in Hr.
  - eexists. apply (get_imap_server_of_piece _ piece).
    rewrite (split_at_cons u r Hu), Hr. reflexivity.
Qed.

(** C4, as stated, fails twice: an address without an at sign makes the
    resolver raise [IndexError] instead of returning a hostname; and for
    a@b@gmail.com, where what follows the first at sign contains gmail, the
    resolver looks at the piece b only and returns imap.b. *)
Lemma C4_counterexample :
  (get_imap_server "nodomain" = Raise IndexError
   /\ ~ (exists host, get_imap_server "nodomain" = Ok host))
  /\ (Py.contains "gmail" (Py.lower (after_first "@" "a@b@gmail.com")) = true
      /\ get_imap_server "a@b@gmail.com" = Ok "imap.b").
Proof.
  split; [split; [reflexivity|] | split; reflexivity].
  intros [host Hhost]. discriminate Hhost.
Qed.

(** The domain is the piece between the first and the second at sign, not
    all that follows the first one. *)
Example resolve_two_at_signs : get_imap_server "a@b@gmail.com" = Ok "imap.b".
Proof. reflexivity. Qed.

(** C4 (amended): for an address [user@dom] or [user@dom@rest], where
    [user] and [dom] hold no at sign, the resolver returns the provider of
    the lower-cased [dom]: imap.gmail.com when it contains gmail, else
    imap.mail.yahoo.com for yahoo, else outlook.office365.com for outlook,
    hotmail or live, else imap.mail.me.com for icloud, else imap.<dom>;
    an address without an at sign raises [IndexError]; the two examples of
    the specification hold. *)
Theorem C4_resolve_amended (user dom rest : string) :
  Py.has_char "@" user = false ->
  Py.has_char "@" dom = false ->
  get_imap_server (user +:+ "@" +:+ dom) = Ok (provider_of (Py.lower dom))
  /\ get_imap_server (user +:+ "@" +:+ dom +:+ "@" +:+ rest)
     = Ok (provider_of (Py.lower dom))
  /\ get_imap_server user = Raise IndexError
  /\ get_imap_server "a@gmail.com" = Ok "imap.gmail.com"
  /\ get_imap_server "a@myown.org" = Ok "imap.myown.org".
Proof.
  intros Hu Hd. repeat split.
  - apply get_imap_server_of_piece.
    change (user +:+ "@" +:+ dom) with (user +:+ String "@" dom).
    now rewrite (split_at_cons _ _ Hu), (split_at_none _ Hd).
  - apply get_imap_server_of_piece.
    change (user +:+ "@" +:+ dom +:+ "@" +:+ rest)
      with (user +:+ String "@" (dom +:+ String "@" rest)).
    now rewrite (split_at_cons _ _ Hu), (split_at_cons _ _ Hd).
  - unfold get_imap_server. now rewrite (split_at_none _ Hu).
Qed.

Lemma C4_resolve_amended_witness :
  get_imap_server ("bob" +:+ "@" +:+ "Mail.Yahoo.com")
  = Ok (provider_of (Py.lower "Mail.Yahoo.com")).
Proof.
  apply (C4_resolve_amended "bob" "Mail.Yahoo.com" "x"); reflexivity.
Defined.

(** ** Cache store *)

Lemma get_from_cache_fresh (now : Q) (key : string) (entry : CacheEntry)
    (cache : gmap string CacheEntry) :
  cache !! key = Some entry ->
  (now - timestamp entry < CACHE_TTL)%Q ->
  get_from_cache now key cache = (Some (data entry), cache).
Proof.
  intros Hk Hfresh. unfold get_from_cache. rewrite Hk.
  destruct (Qlt_le_dec _ _) as [_|Hle]; [reflexivity|].
  exfalso. exact (Qle_not_lt _ _ Hle Hfresh).
Qed.

Lemma get_from_cache_expired (now : Q) (key : string) (entry : CacheEntry)
    (cache : gmap string CacheEntry) :
  cache !! key = Some entry ->
  (CACHE_TTL <= now - timestamp entry)%Q ->
  get_from_cache now key cache = (None, delete key cache).
Proof.
  intros Hk Hold. unfold get_from_cache. rewrite Hk.
  destruct (Qlt_le_dec _ _) as [Hlt|_]; [|reflexivity].
  exfalso. exact (Qle_not_lt _ _ Hold Hlt).
Qed.

Lemma get_from_cache_absent (now : Q) (key : string)
    (cache : gmap string CacheEntry) :
  cache !! key = None -> get_from_cache now key cache = (None, cache).
Proof. intros Hk. unfold get_from_cache. now rewrite Hk. Qed.

(** C7: right after [set_cache k v], and as long as less than 600 seconds
    have passed, [get_from_cache k] returns [v] and leaves the cache as it
    is; once 600 seconds or more have passed it returns nothing and deletes
    the entry, and a later lookup, at any time, still returns nothing;
    [set_cache] overwrites whatever the cache held for [k] with the new
    data and the current time, and touches no other key. *)
Theorem C7_cache_contract (k : string) (v : list Message) (t0 t t' : Q)
    (cache : gmap string CacheEntry) :
  let stored := set_cache t0 k v cache in
  get_from_cache t0 k stored = (Some v, stored)
  /\ ((t - t0 < 600)%Q -> get_from_cache t k stored = (Some v, stored))
  /\ ((600 <= t - t0)%Q ->
      get_from_cache t k stored = (None, delete k stored)
      /\ delete k stored !! k = None
      /\ get_from_cache t' k (delete k stored) = (None, delete k stored))
  /\ stored !! k = Some {| data := v; timestamp := t0 |}
  /\ (forall k', k' <> k -> stored !! k' = cache !! k').
Proof.
  intros stored.
  assert (Hk : stored !! k = Some {| data := v; timestamp := t0 |})
    by apply lookup_insert_eq.
  repeat split.
  - apply (get_from_cache_fresh _ _ _ _ Hk). unfold CACHE_TTL. cbn [timestamp].
    lra.
  - intros Hfresh. exact (get_from_cache_fresh _ _ _ _ Hk Hfresh).
  - apply (get_from_cache_expired _ _ _ _ Hk). assumption.
  - apply lookup_delete_eq.
  - apply get_from_cache_absent, lookup_delete_eq.
  - exact Hk.
  - intros k' Hne. apply lookup_insert_ne. congruence.
Qed.

Lemma C7_cache_contract_witness :
  get_from_cache 700 "k" (set_cache 100 "k" [message_dated "9 Feb"] ∅)
  = (None, delete "k" (set_cache 100 "k" [message_dated "9 Feb"] ∅)).
Proof.
  apply (C7_cache_contract "k" [message_dated "9 Feb"] 100 700 800 ∅).
  vm_compute. discriminate.
Defined.

(** ** The error monad *)

Lemma bind_Ok {A B : Type} (m : pyres A) (f : A -> pyres B) (b : B) :
  m ≫= f = Ok b -> exists a, m = Ok a /\ f a = Ok b.
Proof. destruct m as [a|e]; [eauto | discriminate]. Qed.

Lemma py_mapM_Ok {A B : Type} (f : A -> pyres B) (l : list A) (ys : list B) :
  py_mapM f l = Ok ys <-> Forall2 (fun x y => f x = Ok y) l ys.
Proof.
  revert ys. induction l as [|x l IH]; intros ys; cbn [py_mapM].
  - split; [intros [= <-]; constructor | intros H; inversion H; reflexivity].
  - split.
    + intros H. apply bind_Ok in H as [y [Hy H]].
      apply bind_Ok in H as [ys' [Hys H]]. injection H as <-.
      constructor; [assumption | now apply IH].
    + intros H. inversion H as [|? y ? ys' Hy Hys]; subst.
      apply IH in Hys. rewrite Hy. cbn. rewrite Hys. reflexivity.
Qed.

Lemma py_mapM_Raise {A B : Type} (f : A -> pyres B) (l : list A) (e : exn) :
  py_mapM f l = Raise e -> exists x, x ∈ l /\ f x = Raise e.
Proof.
  induction l as [|x l IH]; cbn [py_mapM]; [discriminate|].
  destruct (f x) as [y|e'] eqn:Hx; cbn.
  - destruct (py_mapM f l) as [ys|e'']; cbn; [discriminate|].
    intros [= ->]. destruct (IH eq_refl) as [x' [Hin Hx']].
    exists x'. split; [now right | assumption].
  - intros [= ->]. exists x. split; [left | assumption].
Qed.

Lemma omap_cons {A B : Type} (f : A -> option B) (x : A) (l : list A) :
  omap f (x :: l)
  = match f x with Some y => y :: omap f l | None => omap f l end.
Proof. reflexivity. Qed.

Lemma omap_length_le {A B : Type} (f : A -> option B) (l : list A) :
  length (omap f l) <= length l.
Proof.
  induction l as [|x l IH]; [reflexivity|]. rewrite omap_cons.
  destruct (f x); cbn [length]; lia.
Qed.

(** ** Snippets *)


Lemma str_app_nil_r (a : string) : a +:+ EmptyString = a.
Proof.
  induction a as [|c a IH]; [reflexivity|]. rewrite str_app_cons. now rewrite IH.
Qed.










Section Snippet.

Context `{Lib : Library}.



(** What an emitted message is made of. *)
Lemma process_message_Some (srv : Server) (f msg_id : string) (m : Message) :
  process_message srv f msg_id = Some m ->
  exists em,
    fetch srv f msg_id = Ok ("OK", Ok em)
    /\ folder m = f
    /\ snippet m = clean_snippet (raw_snippet em)
    /\ date m = date_text (default (DateText EmptyString) (hdr_Date em))
    /\ date_is_header m
       = is_header_object (default (DateText EmptyString) (hdr_Date em))
    /\ bytes_decode "utf-8" msg_id = Ok (uid m).
Proof.
  unfold process_message. intros Hm.
  destruct (process_message_try srv f msg_id) as [r|e] eqn:Htry;
    [subst r | discriminate].
  unfold process_message_try in Htry.
  apply bind_Ok in Htry as [[status msg_data] [Hfetch Htry]].
  destruct (String.eqb status "OK") eqn:Hst; cbn [negb] in Htry;
    [|discriminate].
  apply String.eqb_eq in Hst as ->.
  apply bind_Ok in Htry as [em [-> Htry]].
  apply bind_Ok in Htry as [sender_v [_ Htry]].
  apply bind_Ok in Htry as [subject_v [_ Htry]].
  apply bind_Ok in Htry as [uid_v [Huid Htry]].
  injection Htry as <-. exists em. cbn. repeat split; assumption.
Qed.

Lemma fetch_loop_acc (srv : Server) (f : string) (ids : list string)
    (acc : list Message) :
  foldl (fun messages msg_id =>
           match process_message srv f msg_id with
           | Some m => (messages ++ [m])%list
           | None => messages
           end) acc ids
  = (acc ++ omap (process_message srv f) ids)%list.
Proof.
  revert acc. induction ids as [|i ids IH]; intros acc.
  - cbn. now rewrite app_nil_r.
  - cbn [foldl]. rewrite IH, omap_cons.
    destruct (process_message srv f i); [|reflexivity].
    now rewrite <- app_assoc.
Qed.

(** The loop appends, in order, the message of every identifier that
    yields one. *)
Lemma fetch_loop_omap (srv : Server) (f : string) (ids : list string) :
  fetch_loop srv f ids = omap (process_message srv f) ids.
Proof. unfold fetch_loop. now rewrite fetch_loop_acc. Qed.

(** Every message of a folder comes out of [process_message] on a
    fetched identifier. *)
Lemma fetch_messages_from_folder_elem (srv : Server) (f : string)
    (limit : Z) (m : Message) :
  m ∈ (fetch_messages_from_folder srv f limit).1 ->
  exists msg_id, process_message srv f msg_id = Some m.
Proof.
  unfold fetch_messages_from_folder.
  destruct (select srv f) as [status|e]; [|intros H; inversion H].
  destruct (negb _); [intros H; inversion H|].
  destruct (search srv f) as [[status' [raw|]]|e];
    try (destruct (negb _)); cbn [fst]; try (intros H; inversion H; fail).
  rewrite fetch_loop_omap, list_elem_of_omap. intros [i [_ Hi]]. eauto.
Qed.

End Snippet.



(** ** Sorting by the raw date string *)









Lemma insert_desc_Permutation (m : Message) (l : list Message) :
  Permutation (insert_desc m l) (m :: l).
Proof.
  induction l as [|y l IH]; cbn [insert_desc]; [reflexivity|].
  destruct (String.ltb (date m) (date y)); [|reflexivity].
  rewrite IH. apply perm_swap.
Qed.


(** The sort keeps every message. *)
Lemma sort_by_date_desc_Permutation (l : list Message) :
  Permutation (sort_by_date_desc l) l.
Proof.
  induction l as [|m l IH]; cbn; [reflexivity|].
  rewrite insert_desc_Permutation. now constructor.
Qed.

(** The sort is stable: of two messages with the same date, the one that
    came first stays first. *)
Example sort_by_date_desc_stable :
  map uid (sort_by_date_desc
             [ {| uid := "1"; sender := EmptyString; subject := EmptyString; date := "9 Feb";
                  folder := "INBOX"; snippet := EmptyString;
                  date_is_header := false |};
               {| uid := "2"; sender := EmptyString; subject := EmptyString; date := "9 Feb";
                  folder := "SPAM"; snippet := EmptyString;
                  date_is_header := false |} ])
  = ["1"; "2"].
Proof. reflexivity. Qed.

Section Aggregate.

Context `{Lib : Library}.

(** The aggregator on a cache miss, or on a cached empty list. *)
Lemma fetch_messages_from_account_miss (srv : Server) (t_get t_set : Q)
    (email_address password : string) (w : World) :
  let key := get_cache_key email_address "all" in
  let looked := get_from_cache t_get key (memory_cache w) in
  truthy looked.1 = false ->
  fetch_messages_from_account srv t_get t_set email_address password w
  = match connect_to_imap srv email_address password with
    | (Raise e, evs) =>
        (Raise (HTTPException 500
                  ("Error fetching messages: " +:+ str_exn e)),
         {| memory_cache := looked.2; trace := (trace w ++ evs)%list |})
    | (Ok _, evs) =>
        let all := (fetch_folders srv (folders_to_check (list_folders srv))).1 in
        let evs' := (fetch_folders srv (folders_to_check (list_folders srv))).2 in
        match sort_messages all with
        | Raise e =>
            (Raise (HTTPException 500
                      ("Error fetching messages: " +:+ str_exn e)),
             {| memory_cache := looked.2;
                trace := (trace w ++ evs ++ [EvList] ++ evs'
                            ++ release srv)%list |})
        | Ok sorted =>
            (Ok sorted,
             {| memory_cache := set_cache t_set key sorted looked.2;
                trace := (trace w ++ evs ++ [EvList] ++ evs'
                            ++ release srv)%list |})
        end
    end.
Proof.
  intros key looked Hmiss. unfold fetch_messages_from_account.
  fold key. fold looked. destruct looked as [cached cache] eqn:Hl.
  cbn [fst snd] in *. rewrite Hmiss.
  destruct (connect_to_imap srv email_address password) as [[[]|e] evs];
    [|reflexivity].
  destruct (fetch_folders srv _) as [all evs']. reflexivity.
Qed.

(** A sort that succeeds gives the messages in the order of
    [sort_by_date_desc]. *)
Lemma sort_messages_Ok (l r : list Message) :
  sort_messages l = Ok r -> r = sort_by_date_desc l.
Proof.
  unfold sort_messages. destruct (_ && _); [discriminate|]. now intros [= <-].
Qed.

(** The sort succeeds on a list of fewer than two messages and on a list
    without a [Header] date. *)
Lemma sort_messages_succeeds (l : list Message) :
  length l <= 1 \/ Forall (fun m => date_is_header m = false) l ->
  sort_messages l = Ok (sort_by_date_desc l).
Proof.
  intros Hok. unfold sort_messages.
  destruct (Nat.leb 2 (length l)) eqn:Hlen; [|reflexivity].
  destruct (existsb date_is_header l) eqn:Hex; [|reflexivity].
  apply Nat.leb_le in Hlen. apply existsb_exists in Hex as [m [Hin Hm]].
  destruct Hok as [Hle | Hall]; [lia|].
  rewrite Forall_forall in Hall. apply list_elem_of_In in Hin.
  rewrite (Hall m Hin) in Hm. discriminate Hm.
Qed.

(** It raises on a list of two or more messages of which one has a
    [Header] date. *)
Lemma sort_messages_fails (l : list Message) (m : Message) :
  2 <= length l -> m ∈ l -> date_is_header m = true ->
  sort_messages l
  = Raise (PyError "TypeError" (sort_type_error (map date_is_header l))).
Proof.
  intros Hlen Hin Hm. unfold sort_messages.
  apply Nat.leb_le in Hlen. rewrite Hlen.
  assert (Hex : existsb date_is_header l = true).
  { apply existsb_exists. exists m. split; [now apply list_elem_of_In | exact Hm]. }
  now rewrite Hex.
Qed.

(** The aggregator on a cache hit with a non-empty list: the list is
    returned, the cache and the trace are untouched. *)
Lemma fetch_messages_from_account_hit (srv : Server) (t_get t_set : Q)
    (email_address password : string) (w : World) (entry : CacheEntry) :
  memory_cache w !! get_cache_key email_address "all" = Some entry ->
  (t_get - timestamp entry < CACHE_TTL)%Q ->
  data entry <> [] ->
  fetch_messages_from_account srv t_get t_set email_address password w
  = (Ok (data entry), w).
Proof.
  intros Hk Hfresh Hne. unfold fetch_messages_from_account.
  rewrite (get_from_cache_fresh _ _ _ _ Hk Hfresh).
  destruct (data entry) as [|m ms] eqn:Hd; [congruence|].
  cbn. destruct w; reflexivity.
Qed.

(** A failure of the aggregator is always an HTTP error 500. *)
Lemma fetch_messages_from_account_error (srv : Server) (t_get t_set : Q)
    (email_address password : string) (w : World) (e : exn) :
  (fetch_messages_from_account srv t_get t_set email_address password w).1
  = Raise e ->
  exists detail, e = HTTPException 500 detail.
Proof.
  unfold fetch_messages_from_account.
  destruct (get_from_cache _ _ _) as [cached cache].
  destruct (truthy cached); [discriminate|].
  destruct (connect_to_imap srv email_address password) as [[[]|e'] evs].
  - destruct (fetch_folders srv _) as [all evs'].
    destruct (sort_messages all); [discriminate|].
    cbn. intros [= <-]. eauto.
  - cbn. intros [= <-]. eauto.
Qed.

End Aggregate.



(** ** Folder discovery *)

Lemma py_mapM_Raise_intro {A B : Type} (f : A -> pyres B) (l : list A)
    (x : A) (e : exn) :
  x ∈ l -> f x = Raise e -> exists e', py_mapM f l = Raise e'.
Proof.
  induction l as [|y l IH]; intros Hin Hx; [inversion Hin|].
  cbn [py_mapM]. destruct (f y) as [b|e1] eqn:Hy; cbn; [|eauto].
  apply elem_of_cons in Hin as [-> | Hin]; [congruence|].
  destruct (IH Hin Hx) as [e' ->]. cbn. eauto.
Qed.

(** C5, as stated, fails: when [mail.list()] answers with a status other
    than OK and no line, the code scans the seven common folders, which is
    neither the hardcoded three of a failed listing nor the choice made
    from an empty list of names. *)
Lemma C5_counterexample :
  @folders_to_check ascii_library (Ok ("NO", [])) = common_folders
  /\ common_folders <> fallback_folders
  /\ common_folders <> spec_listed_choice [].
Proof. repeat split; discriminate. Qed.

Lemma spec_listed_choice_some (names : list string) (f : string) :
  f ∈ common_folders -> f ∈ names ->
  spec_listed_choice names = filter (fun g => g ∈ names) common_folders.
Proof.
  intros Hc Hn. unfold spec_listed_choice.
  destruct (filter (fun g => g ∈ names) common_folders) as [|g l] eqn:Hf;
    [|reflexivity].
  assert (Hin : f ∈ filter (fun g => g ∈ names) common_folders)
    by (apply list_elem_of_filter; auto).
  rewrite Hf in Hin. inversion Hin.
Qed.

Lemma spec_listed_choice_none (names : list string) :
  (forall f, f ∈ common_folders -> f ∉ names) ->
  spec_listed_choice names = take 5 names.
Proof.
  intros Hnone. unfold spec_listed_choice.
  destruct (filter (fun g => g ∈ names) common_folders) as [|g l] eqn:Hf;
    [reflexivity|].
  assert (Hin : g ∈ filter (fun g => g ∈ names) common_folders)
    by (rewrite Hf; left).
  apply list_elem_of_filter in Hin as [Hn Hc]. now apply Hnone in Hc.
Qed.

Lemma folders_to_check_listed `{Lib : Library} (items : list (option string))
    (names : list string) :
  Forall2 (fun item name => folder_name_of item = Ok name) items names ->
  folders_to_check (Ok ("OK", items)) = spec_listed_choice names.
Proof.
  intros Hall. apply py_mapM_Ok in Hall. cbn [folders_to_check].
  rewrite Hall. reflexivity.
Qed.

(** C5 (amended): the folders scanned are
    - the hardcoded INBOX, SPAM, Junk when the listing call raises, or when
      it answers OK and the name of some line cannot be read;
    - the seven common folders, unchanged, when the listing call answers
      with a status other than OK;
    - when it answers OK and every line gives a name: the common folders
      that are among the names, in the order of the common list, if there
      is one, and the first five names in their order otherwise. *)
Theorem C5_folders_amended `{Lib : Library}
    (listing : pyres (string * list (option string))) :
  (forall e, listing = Raise e -> folders_to_check listing = fallback_folders)
  /\ (forall status items,
        listing = Ok (status, items) -> status <> "OK" ->
        folders_to_check listing = common_folders)
  /\ (forall items item e,
        listing = Ok ("OK", items) ->
        item ∈ items -> folder_name_of item = Raise e ->
        folders_to_check listing = fallback_folders)
  /\ (forall items names,
        listing = Ok ("OK", items) ->
        Forall2 (fun item name => folder_name_of item = Ok name) items names ->
        ((exists f, f ∈ common_folders /\ f ∈ names) ->
         folders_to_check listing `sublist_of` common_folders
         /\ forall f, f ∈ folders_to_check listing
                      <-> f ∈ common_folders /\ f ∈ names)
        /\ ((forall f, f ∈ common_folders -> f ∉ names) ->
            folders_to_check listing = take 5 names)).
Proof.
  split; [|split; [|split]].
  - intros e ->. reflexivity.
  - intros status items -> Hst. cbn [folders_to_check].
    apply String.eqb_neq in Hst. now rewrite Hst.
  - intros items item e -> Hin He. cbn [folders_to_check].
    destruct (py_mapM_Raise_intro _ _ _ _ Hin He) as [e' ->]. reflexivity.
  - intros items names -> Hall. rewrite (folders_to_check_listed _ _ Hall).
    split.
    + intros [f [Hc Hn]]. rewrite (spec_listed_choice_some _ _ Hc Hn). split.
      * apply sublist_filter.
      * intros g. rewrite list_elem_of_filter. tauto.
    + apply spec_listed_choice_none.
Qed.

Lemma C5_folders_amended_witness :
  @folders_to_check ascii_library (Ok ("OK", [Some inbox_line; Some "Archive"]))
  `sublist_of` common_folders.
Proof.
  refine (proj1 (proj1 (proj2 (proj2 (proj2
    (@C5_folders_amended ascii_library
       (Ok ("OK", [Some inbox_line; Some "Archive"])))))
    [Some inbox_line; Some "Archive"] ["INBOX"; "Archive"] eq_refl _) _)).
  - repeat constructor.
  - exists "INBOX". split; [left | left].
Defined.

(** ** Folder fetcher *)

(** With a positive limit the identifiers kept are the last [limit]. *)
Lemma recent_ids_positive (limit : Z) (ids : list string) :
  (0 < limit)%Z ->
  recent_ids limit ids = drop (length ids - Z.to_nat limit) ids.
Proof.
  intros Hpos. unfold recent_ids, Py.slice_from.
  destruct (Z.ltb_spec limit (Z.of_nat (length ids))) as [Hlt|Hge].
  - destruct (Z.ltb_spec (- limit) 0) as [_|Hneg]; [|lia].
    f_equal. lia.
  - replace (length ids - Z.to_nat limit) with 0 by lia. reflexivity.
Qed.

Lemma recent_ids_length (limit : Z) (ids : list string) :
  (0 < limit)%Z -> (Z.of_nat (length (recent_ids limit ids)) <= limit)%Z.
Proof.
  intros Hpos. rewrite (recent_ids_positive _ _ Hpos), length_drop. lia.
Qed.

(** With a limit of zero, [ids[-0:]] is the whole list. *)
Lemma recent_ids_zero (ids : list string) : recent_ids 0 ids = ids.
Proof.
  unfold recent_ids, Py.slice_from.
  destruct (Z.ltb_spec 0 (Z.of_nat (length ids))); [|reflexivity].
  change (- 0 <? 0)%Z with false. cbv iota.
  rewrite Z.min_l by (cbn; lia). reflexivity.
Qed.

Section FolderFetcher.

Context `{Lib : Library}.

Lemma fetch_messages_from_folder_select_fails (srv : Server) (f : string)
    (limit : Z) :
  (forall status, select srv f = Ok status -> status <> "OK") ->
  (fetch_messages_from_folder srv f limit).1 = [].
Proof.
  intros Hsel. unfold fetch_messages_from_folder.
  destruct (select srv f) as [status|e]; [|reflexivity].
  specialize (Hsel status eq_refl). apply String.eqb_neq in Hsel.
  now rewrite Hsel.
Qed.

Lemma fetch_messages_from_folder_ok (srv : Server) (f raw : string)
    (limit : Z) :
  select srv f = Ok "OK" ->
  search srv f = Ok ("OK", Some raw) ->
  fetch_messages_from_folder srv f limit
  = (omap (process_message srv f)
       (rev (recent_ids limit (Py.words Py.is_space_bytes raw))),
     ([EvSelect f; EvSearch f]
        ++ map (EvFetch f)
             (rev (recent_ids limit (Py.words Py.is_space_bytes raw))))%list).
Proof.
  intros Hsel Hsearch. unfold fetch_messages_from_folder.
  rewrite Hsel, Hsearch. change (String.eqb "OK" "OK") with true.
  cbn [negb]. now rewrite fetch_loop_omap.
Qed.

(** With a positive limit: at most [limit] messages, every one tagged
    with the folder, whatever the server answers. *)
Lemma fetch_messages_from_folder_positive_limit (srv : Server) (f : string)
    (limit : Z) :
  (0 < limit)%Z ->
  (Z.of_nat (length (fetch_messages_from_folder srv f limit).1) <= limit)%Z
  /\ (forall m, m ∈ (fetch_messages_from_folder srv f limit).1 ->
        folder m = f).
Proof.
  intros Hpos. split.
  - unfold fetch_messages_from_folder.
    destruct (select srv f) as [status|e]; [|cbn; lia].
    destruct (negb _); [cbn; lia|].
    destruct (search srv f) as [[status' [raw|]]|e];
      try (destruct (negb _)); cbn [fst length]; try lia.
    rewrite fetch_loop_omap.
    pose proof (omap_length_le (process_message srv f)
                  (rev (recent_ids limit (Py.words Py.is_space_bytes raw)))) as Hle.
    rewrite length_rev in Hle.
    pose proof (recent_ids_length limit (Py.words Py.is_space_bytes raw) Hpos).
    lia.
  - intros m Hm. apply fetch_messages_from_folder_elem in Hm as [i Hi].
    apply process_message_Some in Hi as [em [_ [Hf _]]]. exact Hf.
Qed.

(** A failure on one identifier drops that message only. *)
Lemma fetch_loop_skips_failure (srv : Server) (f bad : string)
    (before after : list string) :
  process_message srv f bad = None ->
  fetch_loop srv f (before ++ bad :: after)
  = (fetch_loop srv f before ++ fetch_loop srv f after)%list.
Proof.
  intros Hbad. rewrite !fetch_loop_omap, omap_app, omap_cons.
  now rewrite Hbad.
Qed.

End FolderFetcher.


Section FolderFetcherAmended.

Context `{Lib : Library}.


End FolderFetcherAmended.



(** ** Lower-casing and address extraction commute *)

Ltac by_cases_on_char c :=
  destruct c as [[] [] [] [] [] [] [] []]; reflexivity.

Lemma lower_char_idem (c : ascii) :
  Py.lower_char (Py.lower_char c) = Py.lower_char c.
Proof. by_cases_on_char c. Qed.

Lemma lower_char_is_space (c : ascii) :
  Py.is_space (Py.lower_char c) = Py.is_space c.
Proof. by_cases_on_char c. Qed.

Lemma lower_char_lt (c : ascii) :
  Ascii.eqb "<" (Py.lower_char c) = Ascii.eqb "<" c.
Proof. by_cases_on_char c. Qed.

Lemma lower_char_gt (c : ascii) :
  Ascii.eqb ">" (Py.lower_char c) = Ascii.eqb ">" c.
Proof. by_cases_on_char c. Qed.

Lemma lower_idem (s : string) : Py.lower (Py.lower s) = Py.lower s.
Proof.
  induction s as [|c s IH]; [reflexivity|]. cbn [Py.lower].
  now rewrite lower_char_idem, IH.
Qed.

Lemma has_lt_lower (s : string) :
  Py.has_char "<" (Py.lower s) = Py.has_char "<" s.
Proof.
  induction s as [|c s IH]; [reflexivity|]. cbn [Py.lower Py.has_char].
  now rewrite lower_char_lt, IH.
Qed.

Lemma has_gt_lower (s : string) :
  Py.has_char ">" (Py.lower s) = Py.has_char ">" s.
Proof.
  induction s as [|c s IH]; [reflexivity|]. cbn [Py.lower Py.has_char].
  now rewrite lower_char_gt, IH.
Qed.

Lemma until_gt_lower (s : string) :
  until_gt (Py.lower s) = Py.lower <$> until_gt s.
Proof.
  induction s as [|c s IH]; [reflexivity|]. cbn [Py.lower until_gt].
  rewrite (Ascii.eqb_sym (Py.lower_char c)), lower_char_gt, (Ascii.eqb_sym ">").
  destruct (Ascii.eqb c ">"); [reflexivity|].
  rewrite IH. now destruct (until_gt s).
Qed.

Lemma search_angle_lower (s : string) :
  search_angle (Py.lower s) = Py.lower <$> search_angle s.
Proof.
  induction s as [|c s IH]; [reflexivity|]. cbn [Py.lower search_angle].
  rewrite (Ascii.eqb_sym (Py.lower_char c)), lower_char_lt, (Ascii.eqb_sym "<").
  destruct (Ascii.eqb c "<"); [|exact IH].
  rewrite until_gt_lower. destruct (until_gt s) as [[|d g]|]; cbn; auto.
Qed.

Lemma lstrip_lower (s : string) :
  Py.lstrip Py.is_space (Py.lower s) = Py.lower (Py.lstrip Py.is_space s).
Proof.
  induction s as [|c s IH]; [reflexivity|]. cbn [Py.lower Py.lstrip].
  rewrite lower_char_is_space. now destruct (Py.is_space c).
Qed.

Lemma rstrip_lower (s : string) :
  Py.rstrip Py.is_space (Py.lower s) = Py.lower (Py.rstrip Py.is_space s).
Proof.
  induction s as [|c s IH]; [reflexivity|]. cbn [Py.lower Py.rstrip].
  rewrite IH, lower_char_is_space.
  destruct (Py.rstrip Py.is_space s); cbn [Py.lower];
    [now destruct (Py.is_space c) | reflexivity].
Qed.

Lemma strip_lower (s : string) :
  Py.strip Py.is_space (Py.lower s) = Py.lower (Py.strip Py.is_space s).
Proof. unfold Py.strip. now rewrite lstrip_lower, rstrip_lower. Qed.

(** Extracting the address from the lower-cased sender, as the code does,
    gives the lower-cased address of the sender. *)
Lemma extract_email_address_lower (s : string) :
  extract_email_address (Py.lower s) = Py.lower (extract_email_address s).
Proof.
  unfold extract_email_address.
  rewrite has_lt_lower, has_gt_lower, search_angle_lower.
  destruct (Py.has_char "<" s && Py.has_char ">" s); [|apply strip_lower].
  destruct (search_angle s); cbn; apply strip_lower.
Qed.

Lemma sender_matches_spec (sender_term : string) (m : Message) :
  sender_matches (Py.lower sender_term) m = spec_sender_matches sender_term m.
Proof.
  unfold sender_matches, spec_sender_matches.
  now rewrite extract_email_address_lower, lower_idem.
Qed.

(** ** Query layer *)

(** C8: the search fails with status 400 exactly when the sender term is
    absent or empty; otherwise, when the aggregator returns a list, the
    search returns those of its messages whose lower-cased sender, or whose
    lower-cased extracted address, contains the lower-cased term, with
    their number and the term; the sender Alice <a@x.com> matches ALICE,
    a@x.com and x.com and does not match bob. *)
Theorem C8_search_by_sender `{Lib : Library} (srv : Server) (t_get t_set : Q)
    (email_address password : string) (sender_param : option string)
    (w : World) :
  (http_status
     (search_messages srv t_get t_set email_address password sender_param w).1
   = Some 400%Z
   <-> sender_param = None \/ sender_param = Some EmptyString)
  /\ (forall term all w',
        sender_param = Some term -> term <> EmptyString ->
        fetch_messages_from_account srv t_get t_set email_address password w
        = (Ok all, w') ->
        search_messages srv t_get t_set email_address password sender_param w
        = (Ok {| sr_messages := filter (fun m => spec_sender_matches term m) all;
                 sr_count :=
                   length (filter (fun m => spec_sender_matches term m) all);
                 sr_search_term := term |}, w'))
  /\ (forall m, sender m = "Alice <a@x.com>" ->
        spec_sender_matches "ALICE" m = true
        /\ spec_sender_matches "a@x.com" m = true
        /\ spec_sender_matches "x.com" m = true
        /\ spec_sender_matches "bob" m = false).
Proof.
  split; [|split].
  - split.
    + destruct sender_param as [[|c term]|]; auto. cbn [search_messages].
      destruct (fetch_messages_from_account _ _ _ _ _ _) as [[all|e] w'] eqn:Hrun.
      * discriminate.
      * pose proof (fetch_messages_from_account_error srv t_get t_set
                      email_address password w e) as Herr.
        rewrite Hrun in Herr. destruct (Herr eq_refl) as [detail ->].
        cbn. discriminate.
    + intros [-> | ->]; reflexivity.
  - intros term all w' -> Hne Hrun. destruct term as [|c term]; [congruence|].
    cbn [search_messages]. rewrite Hrun.
    rewrite (list_filter_iff
               (fun m => sender_matches (Py.lower (String c term)) m)
               (fun m => spec_sender_matches (String c term) m)); [reflexivity|].
    intros m. now rewrite sender_matches_spec.
  - intros [] Hs. cbn [sender] in Hs. subst. repeat split; reflexivity.
Qed.

Lemma C8_search_by_sender_witness :
  match (@search_messages ascii_library sample_server 0 0 "a@gmail.com" "pw"
           (Some "ALICE") empty_world).1 with
  | Ok r => sr_count r = 3 /\ sr_search_term r = "ALICE"
  | Raise _ => False
  end.
Proof.
  destruct (@fetch_messages_from_account ascii_library sample_server 0 0
              "a@gmail.com" "pw" empty_world) as [[all|e] w'] eqn:Hrun.
  - rewrite (proj1 (proj2 (@C8_search_by_sender ascii_library sample_server 0 0
                             "a@gmail.com" "pw" (Some "ALICE") empty_world))
               "ALICE" all w' eq_refl ltac:(discriminate) Hrun).
    cbn [fst sr_count sr_search_term]. split; [|reflexivity].
    vm_compute in Hrun. injection Hrun as <- _. reflexivity.
  - vm_compute in Hrun. discriminate Hrun.
Defined.

(** ** Connection failures *)

Lemma count_connects_app (evs evs' : list Event) :
  count_connects (evs ++ evs') = count_connects evs + count_connects evs'.
Proof.
  unfold count_connects. now rewrite List.filter_app, length_app.
Qed.

Section Connect.

Context `{Lib : Library}.

(** A refused connection or login: one connection opened, error 401 out
    of [connect_to_imap]. *)
Lemma connect_to_imap_failure (srv : Server) (email_address password host : string)
    (cause : exn) :
  get_imap_server email_address = Ok host ->
  open_ssl srv host 993 = Some cause
  \/ (open_ssl srv host 993 = None
      /\ login srv email_address password = Some cause) ->
  exists evs,
    connect_to_imap srv email_address password
    = (Raise (connect_failure cause), evs)
    /\ count_connects evs = 1
    /\ exists rest, evs = EvConnect host 993 :: rest.
Proof.
  intros Hhost Hfail. unfold connect_to_imap. rewrite Hhost.
  destruct Hfail as [-> | [-> ->]]; eexists; repeat split; eauto.
Qed.

(** Whatever the server does, resolving the host and connecting opens
    exactly one connection. *)
Lemma connect_to_imap_once (srv : Server) (email_address password host : string) :
  get_imap_server email_address = Ok host ->
  count_connects (connect_to_imap srv email_address password).2 = 1
  /\ exists rest,
       (connect_to_imap srv email_address password).2
       = EvConnect host 993 :: rest.
Proof.
  intros Hhost. unfold connect_to_imap. rewrite Hhost.
  destruct (open_ssl srv host 993); [split; eauto|].
  destruct (login srv email_address password); split; eauto.
Qed.

Lemma count_connects_fetch_folder (srv : Server) (f : string) (limit : Z) :
  count_connects (fetch_messages_from_folder srv f limit).2 = 0.
Proof.
  unfold fetch_messages_from_folder.
  destruct (select srv f) as [status|e]; [|reflexivity].
  destruct (negb _); [reflexivity|].
  destruct (search srv f) as [[status' [raw|]]|e];
    try (destruct (negb _)); try reflexivity.
  cbn [snd]. rewrite count_connects_app. cbn.
  induction (rev _) as [|i l IH]; [reflexivity | exact IH].
Qed.

Lemma count_connects_fetch_folders (srv : Server) (folders : list string) :
  count_connects (fetch_folders srv folders).2 = 0.
Proof.
  induction folders as [|f rest IH]; [reflexivity|]. cbn [fetch_folders].
  pose proof (count_connects_fetch_folder srv f 30) as Hf.
  destruct (fetch_messages_from_folder srv f 30) as [ms evs].
  destruct (fetch_folders srv rest) as [more evs']. cbn [snd] in *.
  rewrite count_connects_app. lia.
Qed.

Lemma count_connects_release (srv : Server) : count_connects (release srv) = 0.
Proof. unfold release. now destruct (close srv). Qed.

(** On a miss the aggregator opens one connection, to the resolved host
    on port 993, and none after it. *)
Lemma fetch_messages_from_account_connects_once (srv : Server)
    (t_get t_set : Q) (email_address password host : string) (w : World) :
  truthy (get_from_cache t_get (get_cache_key email_address "all")
            (memory_cache w)).1 = false ->
  get_imap_server email_address = Ok host ->
  let w' := (fetch_messages_from_account srv t_get t_set
               email_address password w).2 in
  count_connects (trace w') = S (count_connects (trace w))
  /\ exists rest, trace w' = (trace w ++ EvConnect host 993 :: rest)%list.
Proof.
  intros Hmiss Hhost.
  rewrite (fetch_messages_from_account_miss _ _ _ _ _ _ Hmiss).
  destruct (connect_to_imap_once srv email_address password host Hhost)
    as [Hone [rest Hrest]].
  destruct (connect_to_imap srv email_address password) as [[[]|e] evs];
    cbn [snd] in *; cbn [snd trace]; subst evs.
  - cbn zeta. destruct (sort_messages _); cbn [snd trace];
      rewrite !count_connects_app, Hone, count_connects_release,
        count_connects_fetch_folders; cbn; (split; [lia|]); eauto.
  - rewrite count_connects_app, Hone. split; [lia|]. eauto.
Qed.

End Connect.

(** C1 on the code: when opening the TLS session on port 993 or the login
    fails, [connect_to_imap] raises the error 401 with the cause, but the
    aggregator catches it and raises an error 500 that wraps it; both
    endpoints pass that 500 on.  One connection is opened, without a
    retry. *)
Theorem C1_connection_failure_surfaces_as_500 `{Lib : Library} (srv : Server)
    (t_get t_set : Q) (email_address password host : string) (cause : exn)
    (w : World) :
  truthy (get_from_cache t_get (get_cache_key email_address "all")
            (memory_cache w)).1 = false ->
  get_imap_server email_address = Ok host ->
  open_ssl srv host 993 = Some cause
  \/ (open_ssl srv host 993 = None
      /\ login srv email_address password = Some cause) ->
  let wrapped :=
    HTTPException 500
      ("Error fetching messages: "
         +:+ http_exception_str 401
               ("Failed to connect to email server: " +:+ str_exn cause)) in
  (fetch_messages_from_account srv t_get t_set email_address password w).1
  = Raise wrapped
  /\ (get_messages srv t_get t_set email_address password w).1 = Raise wrapped
  /\ (forall term, term <> EmptyString ->
        (search_messages srv t_get t_set email_address password (Some term) w).1
        = Raise wrapped)
  /\ http_status (get_messages srv t_get t_set email_address password w).1
     <> Some 401%Z
  /\ count_connects
       (trace (get_messages srv t_get t_set email_address password w).2)
     = S (count_connects (trace w)).
Proof.
  intros Hmiss Hhost Hfail wrapped.
  pose proof (fetch_messages_from_account_connects_once srv t_get t_set
                email_address password host w Hmiss Hhost) as [Hone _].
  destruct (connect_to_imap_failure srv email_address password host cause
              Hhost Hfail) as [evs [Hconn _]].
  assert (Hrun : (fetch_messages_from_account srv t_get t_set email_address
                    password w).1 = Raise wrapped).
  { rewrite (fetch_messages_from_account_miss _ _ _ _ _ _ Hmiss), Hconn.
    reflexivity. }
  unfold get_messages, search_messages.
  destruct (fetch_messages_from_account srv t_get t_set email_address password w)
    as [r w'].
  cbn [fst snd] in *. subst r. cbn [fst snd]. repeat split; try assumption.
  - intros [|c term] Hne; [congruence | reflexivity].
  - discriminate.
Qed.

Lemma C1_connection_failure_surfaces_as_500_witness :
  http_status
    (@get_messages ascii_library
       (refusing_server (PyError "error" "AUTHENTICATIONFAILED")) 0 0
       "a@gmail.com" "wrong" empty_world).1
  <> Some 401%Z.
Proof.
  apply (@C1_connection_failure_surfaces_as_500 ascii_library
           (refusing_server (PyError "error" "AUTHENTICATIONFAILED")) 0 0
           "a@gmail.com" "wrong" "imap.gmail.com"
           (PyError "error" "AUTHENTICATIONFAILED") empty_world).
  - reflexivity.
  - reflexivity.
  - right. split; reflexivity.
Defined.

(** ** Cache hits *)

(** C2 on the code: with a fresh cache entry that holds the empty list,
    [if cached_data:] takes the entry for a miss: the aggregator connects
    to the mail server again instead of returning the cached list. *)
Theorem C2_cached_empty_list_reconnects `{Lib : Library} (srv : Server)
    (t_get t_set : Q) (email_address password host : string)
    (entry : CacheEntry) (w : World) :
  memory_cache w !! get_cache_key email_address "all" = Some entry ->
  (t_get - timestamp entry < 600)%Q ->
  data entry = [] ->
  get_imap_server email_address = Ok host ->
  let w' := (fetch_messages_from_account srv t_get t_set
               email_address password w).2 in
  count_connects (trace w') = S (count_connects (trace w))
  /\ exists rest, trace w' = (trace w ++ EvConnect host 993 :: rest)%list.
Proof.
  intros Hk Hfresh Hempty Hhost.
  apply fetch_messages_from_account_connects_once; [|assumption].
  rewrite (get_from_cache_fresh _ _ _ _ Hk Hfresh). cbn [fst].
  now rewrite Hempty.
Qed.

Lemma C2_cached_empty_list_reconnects_witness :
  count_connects
    (trace (@fetch_messages_from_account ascii_library sample_server 10 10
              "a@gmail.com" "pw"
              (@cached_world ascii_library "a@gmail.com" [] 0)).2)
  = 1.
Proof.
  apply (@C2_cached_empty_list_reconnects ascii_library sample_server 10 10
           "a@gmail.com" "pw" "imap.gmail.com"
           {| data := []; timestamp := 0 |}
           (@cached_world ascii_library "a@gmail.com" [] 0)).
  - apply lookup_insert_eq.
  - reflexivity.
  - reflexivity.
  - reflexivity.
Defined.

(** For a fresh entry with a non-empty list, C2 holds: the cached list is
    returned and neither the cache nor the trace changes, so no connection
    is made. *)
Lemma fresh_nonempty_cache_is_served `{Lib : Library} (srv : Server)
    (t_get t_set : Q) (email_address password : string)
    (entry : CacheEntry) (w : World) :
  memory_cache w !! get_cache_key email_address "all" = Some entry ->
  (t_get - timestamp entry < 600)%Q ->
  data entry <> [] ->
  fetch_messages_from_account srv t_get t_set email_address password w
  = (Ok (data entry), w)
  /\ count_connects
       (trace (fetch_messages_from_account srv t_get t_set
                 email_address password w).2)
     = count_connects (trace w).
Proof.
  intros Hk Hfresh Hne.
  rewrite (fetch_messages_from_account_hit _ _ _ _ _ _ _ Hk Hfresh Hne).
  split; reflexivity.
Qed.

(** ** The aggregator: further properties *)

Lemma get_from_cache_other (now : Q) (key k : string)
    (cache : gmap string CacheEntry) :
  k <> key -> (get_from_cache now key cache).2 !! k = cache !! k.
Proof.
  intros Hne. unfold get_from_cache. destruct (cache !! key) as [entry|];
    [|reflexivity].
  destruct (Qlt_le_dec _ _); cbn [snd]; [reflexivity|].
  apply lookup_delete_ne. congruence.
Qed.

Lemma get_from_cache_adds_nothing (now : Q) (key k : string)
    (cache : gmap string CacheEntry) (entry : CacheEntry) :
  (get_from_cache now key cache).2 !! k = Some entry -> cache !! k = Some entry.
Proof.
  unfold get_from_cache. destruct (cache !! key) as [cached|] eqn:Hk;
    [|trivial].
  destruct (Qlt_le_dec _ _); cbn [snd]; [trivial|].
  intros Hl. apply lookup_delete_Some in Hl as [_ Hl]. exact Hl.
Qed.

Section AggregateMore.

Context `{Lib : Library}.

Lemma connect_to_imap_success (srv : Server)
    (email_address password host : string) :
  get_imap_server email_address = Ok host ->
  open_ssl srv host 993 = None ->
  login srv email_address password = None ->
  connect_to_imap srv email_address password
  = (Ok (), [EvConnect host 993; EvLogin email_address]).
Proof.
  intros Hhost Hopen Hlogin. unfold connect_to_imap.
  now rewrite Hhost, Hopen, Hlogin.
Qed.

(** A call that succeeds without the cache stores its result under the
    key of the account, with the time of the store. *)
Lemma fetch_messages_from_account_stores (srv : Server) (t_get t_set : Q)
    (email_address password : string) (w w1 : World) (msgs : list Message) :
  truthy (get_from_cache t_get (get_cache_key email_address "all")
            (memory_cache w)).1 = false ->
  fetch_messages_from_account srv t_get t_set email_address password w
  = (Ok msgs, w1) ->
  memory_cache w1 !! get_cache_key email_address "all"
  = Some {| data := msgs; timestamp := t_set |}.
Proof.
  intros Hmiss Hrun.
  rewrite (fetch_messages_from_account_miss _ _ _ _ _ _ Hmiss) in Hrun.
  destruct (connect_to_imap srv email_address password) as [[[]|e] evs];
    [|discriminate].
  cbn zeta in Hrun. destruct (sort_messages _) as [sorted|e]; [|discriminate].
  injection Hrun as <- <-. cbn [memory_cache]. apply lookup_insert_eq.
Qed.

End AggregateMore.

(** X1: once the connection and the login have succeeded, the one step
    of the aggregator that can fail is the sort, and the session is
    released in every case.  The network calls are connect, login, list,
    then calls that open no connection, then close and, unless close
    raised, logout.  When the merged list has fewer than two messages or
    no date that is a [Header] object, the call returns the sorted list
    and stores it under the key of the account with the time of the
    store.  When it has two or more messages and the date of one is a
    [Header] object, the call fails with status 500 and the text of the
    sort's [TypeError], and stores nothing. *)
Theorem aggregate_after_login_fails_only_in_sort `{Lib : Library}
    (srv : Server) (t_get t_set : Q) (email_address password host : string)
    (w : World) :
  truthy (get_from_cache t_get (get_cache_key email_address "all")
            (memory_cache w)).1 = false ->
  get_imap_server email_address = Ok host ->
  open_ssl srv host 993 = None ->
  login srv email_address password = None ->
  let r := fetch_messages_from_account srv t_get t_set email_address password w in
  let all := (fetch_folders srv (folders_to_check (list_folders srv))).1 in
  let key := get_cache_key email_address "all" in
  (exists evs,
     trace r.2
     = (trace w ++ [EvConnect host 993; EvLogin email_address; EvList]
          ++ evs ++ release srv)%list
     /\ count_connects evs = 0)
  /\ (length all <= 1 \/ Forall (fun m => date_is_header m = false) all ->
      r.1 = Ok (sort_by_date_desc all)
      /\ memory_cache r.2 !! key
         = Some {| data := sort_by_date_desc all; timestamp := t_set |})
  /\ (forall m,
        2 <= length all -> m ∈ all -> date_is_header m = true ->
        r.1 = Raise (HTTPException 500
                       ("Error fetching messages: "
                          +:+ sort_type_error (map date_is_header all)))
        /\ memory_cache r.2 = (get_from_cache t_get key (memory_cache w)).2).
Proof.
  intros Hmiss Hhost Hopen Hlogin r all key. unfold r.
  rewrite (fetch_messages_from_account_miss _ _ _ _ _ _ Hmiss).
  rewrite (connect_to_imap_success _ _ _ _ Hhost Hopen Hlogin). cbn zeta.
  fold all. fold key. split; [|split].
  - exists (fetch_folders srv (folders_to_check (list_folders srv))).2.
    split; [|apply count_connects_fetch_folders].
    destruct (sort_messages all); reflexivity.
  - intros Hok. rewrite (sort_messages_succeeds _ Hok). cbn [fst snd memory_cache].
    split; [reflexivity | apply lookup_insert_eq].
  - intros m Hlen Hin Hm. rewrite (sort_messages_fails _ _ Hlen Hin Hm).
    split; reflexivity.
Qed.

Lemma aggregate_after_login_fails_only_in_sort_witness :
  (@fetch_messages_from_account ascii_library header_date_server 0 0
     "a@gmail.com" "pw" empty_world).1
  = Raise (HTTPException 500
             ("Error fetching messages: "
                +:+ @sort_type_error ascii_library [true; false]))
  /\ memory_cache
       (@fetch_messages_from_account ascii_library header_date_server 0 0
          "a@gmail.com" "pw" empty_world).2
     = ∅.
Proof.
  apply (proj2 (proj2
           (@aggregate_after_login_fails_only_in_sort ascii_library
              header_date_server 0 0 "a@gmail.com" "pw" "imap.gmail.com"
              empty_world eq_refl eq_refl eq_refl eq_refl))
           {| uid := "2"; sender := "Bob <b@y.org>"; subject := "hello";
              date := "Mon, 1 Jan 2024"; folder := "INBOX";
              snippet := "body"; date_is_header := true |}).
  - vm_compute. lia.
  - vm_compute. left.
  - reflexivity.
Defined.

(** X2: a second call for the same address, made while the entry stored
    by a first successful call is less than 600 seconds old, returns the
    same non-empty list and changes neither the cache nor the trace; this
    holds for any password and any state of the server, neither being
    looked at on a cache hit. *)
Theorem second_call_is_served_from_cache `{Lib : Library} (srv srv' : Server)
    (t_get t_set t_get' t_set' : Q) (email_address password password' : string)
    (w w1 : World) (msgs : list Message) :
  truthy (get_from_cache t_get (get_cache_key email_address "all")
            (memory_cache w)).1 = false ->
  fetch_messages_from_account srv t_get t_set email_address password w
  = (Ok msgs, w1) ->
  msgs <> [] ->
  (t_get' - t_set < 600)%Q ->
  fetch_messages_from_account srv' t_get' t_set' email_address password' w1
  = (Ok msgs, w1).
Proof.
  intros Hmiss Hrun Hne Hfresh.
  pose proof (fetch_messages_from_account_stores _ _ _ _ _ _ _ _ Hmiss Hrun)
    as Hk.
  exact (fetch_messages_from_account_hit srv' t_get' t_set' email_address
           password' w1 _ Hk Hfresh Hne).
Qed.

Lemma second_call_is_served_from_cache_witness :
  @fetch_messages_from_account ascii_library
    (refusing_server (PyError "error" "AUTHENTICATIONFAILED")) 599 599
    "a@gmail.com" "another password"
    (@fetch_messages_from_account ascii_library sample_server 0 0
       "a@gmail.com" "pw" empty_world).2
  = ((@fetch_messages_from_account ascii_library sample_server 0 0
        "a@gmail.com" "pw" empty_world).1,
     (@fetch_messages_from_account ascii_library sample_server 0 0
        "a@gmail.com" "pw" empty_world).2).
Proof.
  destruct (@fetch_messages_from_account ascii_library sample_server 0 0
              "a@gmail.com" "pw" empty_world) as [[msgs|e] w1] eqn:Hrun.
  - cbn [fst snd].
    apply (@second_call_is_served_from_cache ascii_library sample_server
             (refusing_server (PyError "error" "AUTHENTICATIONFAILED"))
             0 0 599 599 "a@gmail.com" "pw" "another password"
             empty_world w1 msgs).
    + reflexivity.
    + exact Hrun.
    + vm_compute in Hrun. injection Hrun as <- _. discriminate.
    + reflexivity.
  - vm_compute in Hrun. discriminate Hrun.
Defined.

(** X3: a call that fails stores nothing: every entry of the cache after
    the call was there before it. *)
Theorem failed_aggregation_stores_nothing `{Lib : Library} (srv : Server)
    (t_get t_set : Q) (email_address password : string) (w : World)
    (e : exn) (k : string) (entry : CacheEntry) :
  (fetch_messages_from_account srv t_get t_set email_address password w).1
  = Raise e ->
  memory_cache
    (fetch_messages_from_account srv t_get t_set email_address password w).2
  !! k = Some entry ->
  memory_cache w !! k = Some entry.
Proof.
  unfold fetch_messages_from_account.
  destruct (get_from_cache t_get _ (memory_cache w)) as [cached cache] eqn:Hget.
  destruct (truthy cached); [discriminate|].
  destruct (connect_to_imap srv email_address password) as [[[]|e'] evs].
  - destruct (fetch_folders srv _) as [all evs'].
    destruct (sort_messages all); [discriminate|].
    cbn [fst snd memory_cache]. intros _ Hk.
    apply (get_from_cache_adds_nothing t_get (get_cache_key email_address "all")).
    now rewrite Hget.
  - cbn [fst snd memory_cache]. intros _ Hk.
    apply (get_from_cache_adds_nothing t_get (get_cache_key email_address "all")).
    now rewrite Hget.
Qed.

Lemma failed_aggregation_stores_nothing_witness :
  memory_cache
    (@cached_world ascii_library "b@yahoo.com" [message_dated "9 Feb"] 0)
  !! "b@yahoo.com:all"
  = Some {| data := [message_dated "9 Feb"]; timestamp := 0 |}.
Proof.
  apply (@failed_aggregation_stores_nothing ascii_library
           (refusing_server (PyError "error" "AUTHENTICATIONFAILED")) 5 5
           "a@gmail.com" "wrong"
           (@cached_world ascii_library "b@yahoo.com" [message_dated "9 Feb"] 0)
           (HTTPException 500
              "Error fetching messages: Failed to connect to email server: AUTHENTICATIONFAILED")
           "b@yahoo.com:all").
  - reflexivity.
  - vm_compute. reflexivity.
Defined.

(** X4: for an address without an at sign and no usable cache entry, the
    call fails with status 500 and the text of the [IndexError], and no
    network call is made. *)
Theorem address_without_at_sign_fails_before_network `{Lib : Library}
    (srv : Server) (t_get t_set : Q) (email_address password : string)
    (w : World) :
  Py.has_char "@" email_address = false ->
  truthy (get_from_cache t_get (get_cache_key email_address "all")
            (memory_cache w)).1 = false ->
  (fetch_messages_from_account srv t_get t_set email_address password w).1
  = Raise (HTTPException 500
             "Error fetching messages: list index out of range")
  /\ trace
       (fetch_messages_from_account srv t_get t_set email_address password w).2
     = trace w.
Proof.
  intros Hat Hmiss.
  rewrite (fetch_messages_from_account_miss _ _ _ _ _ _ Hmiss).
  unfold connect_to_imap, get_imap_server. rewrite (split_at_none _ Hat).
  cbn [lookup fst snd trace]. split; [reflexivity | apply app_nil_r].
Qed.

Lemma address_without_at_sign_fails_before_network_witness :
  (@fetch_messages_from_account ascii_library sample_server 0 0
     "nodomain" "pw" empty_world).1
  = Raise (HTTPException 500
             "Error fetching messages: list index out of range")
  /\ trace
       (@fetch_messages_from_account ascii_library sample_server 0 0
          "nodomain" "pw" empty_world).2
     = trace empty_world.
Proof.
  apply (@address_without_at_sign_fails_before_network ascii_library
           sample_server 0 0 "nodomain" "pw" empty_world); reflexivity.
Defined.

(** X5: when the login is refused after the TLS connection was opened,
    the calls made are connect and login only: the connection is neither
    closed nor logged out, the [finally] clause seeing no session. *)
Theorem refused_login_is_not_released `{Lib : Library} (srv : Server)
    (t_get t_set : Q) (email_address password host : string) (cause : exn)
    (w : World) :
  truthy (get_from_cache t_get (get_cache_key email_address "all")
            (memory_cache w)).1 = false ->
  get_imap_server email_address = Ok host ->
  open_ssl srv host 993 = None ->
  login srv email_address password = Some cause ->
  trace (fetch_messages_from_account srv t_get t_set email_address password w).2
  = (trace w ++ [EvConnect host 993; EvLogin email_address])%list.
Proof.
  intros Hmiss Hhost Hopen Hlogin.
  rewrite (fetch_messages_from_account_miss _ _ _ _ _ _ Hmiss).
  unfold connect_to_imap. rewrite Hhost, Hopen, Hlogin. reflexivity.
Qed.

Lemma refused_login_is_not_released_witness :
  trace (@fetch_messages_from_account ascii_library
           (refusing_server (PyError "error" "AUTHENTICATIONFAILED")) 0 0
           "a@gmail.com" "wrong" empty_world).2
  = (trace empty_world
       ++ [EvConnect "imap.gmail.com" 993; EvLogin "a@gmail.com"])%list.
Proof.
  apply (@refused_login_is_not_released ascii_library
           (refusing_server (PyError "error" "AUTHENTICATIONFAILED")) 0 0
           "a@gmail.com" "wrong" "imap.gmail.com"
           (PyError "error" "AUTHENTICATIONFAILED") empty_world); reflexivity.
Defined.

(** X6: the only failure of the messages endpoint is an HTTP error 500,
    and the only failures of the search endpoint are HTTP errors 400 and
    500. *)
Theorem endpoint_failures_are_400_or_500 `{Lib : Library} (srv : Server)
    (t_get t_set : Q) (email_address password : string)
    (sender_param : option string) (w : World) (e : exn) :
  ((get_messages srv t_get t_set email_address password w).1 = Raise e ->
   exists detail, e = HTTPException 500 detail)
  /\ ((search_messages srv t_get t_set email_address password sender_param w).1
      = Raise e ->
      exists detail,
        e = HTTPException 400 detail \/ e = HTTPException 500 detail).
Proof.
  pose proof (fetch_messages_from_account_error srv t_get t_set
                email_address password w) as Herr.
  split.
  - unfold get_messages.
    destruct (fetch_messages_from_account _ _ _ _ _ _) as [[msgs|e'] w'];
      cbn [fst] in *; [discriminate|].
    destruct (Herr e' eq_refl) as [detail ->]. intros [= <-]. eauto.
  - unfold search_messages. destruct sender_param as [[|c term]|];
      try (intros [= <-]; eauto; fail).
    destruct (fetch_messages_from_account _ _ _ _ _ _) as [[msgs|e'] w'];
      cbn [fst] in *; [discriminate|].
    destruct (Herr e' eq_refl) as [detail ->]. intros [= <-]. eauto.
Qed.

Lemma endpoint_failures_are_400_or_500_witness :
  exists detail,
    HTTPException 400 "Sender parameter is required"
    = HTTPException 400 detail
    \/ HTTPException 400 "Sender parameter is required"
       = HTTPException 500 detail.
Proof.
  apply (proj2 (@endpoint_failures_are_400_or_500 ascii_library sample_server
                  0 0 "a@gmail.com" "pw" None empty_world
                  (HTTPException 400 "Sender parameter is required"))).
  reflexivity.
Defined.

(** X7: a call touches the cache entry of its own address only: the entry
    under any other key is the same before and after, whether the call
    succeeds or fails. *)
Theorem aggregation_touches_only_its_key `{Lib : Library} (srv : Server)
    (t_get t_set : Q) (email_address password : string) (w : World)
    (k : string) :
  k <> get_cache_key email_address "all" ->
  memory_cache
    (fetch_messages_from_account srv t_get t_set email_address password w).2
  !! k = memory_cache w !! k.
Proof.
  intros Hne. unfold fetch_messages_from_account.
  pose proof (get_from_cache_other t_get _ k (memory_cache w) Hne) as Hother.
  destruct (get_from_cache t_get _ (memory_cache w)) as [cached cache].
  cbn [snd] in Hother. destruct (truthy cached); [exact Hother|].
  destruct (connect_to_imap srv email_address password) as [[[]|e'] evs].
  - destruct (fetch_folders srv _) as [all evs'].
    destruct (sort_messages all); cbn [snd memory_cache]; [|exact Hother].
    unfold set_cache. rewrite lookup_insert_ne by congruence. exact Hother.
  - exact Hother.
Qed.

Lemma aggregation_touches_only_its_key_witness :
  memory_cache
    (@fetch_messages_from_account ascii_library sample_server 700 700
       "a@gmail.com" "pw"
       (@cached_world ascii_library "b@yahoo.com" [message_dated "9 Feb"] 0)).2
  !! "b@yahoo.com:all"
  = memory_cache
      (@cached_world ascii_library "b@yahoo.com" [message_dated "9 Feb"] 0)
    !! "b@yahoo.com:all".
Proof.
  apply (@aggregation_touches_only_its_key ascii_library sample_server 700 700
           "a@gmail.com" "pw"
           (@cached_world ascii_library "b@yahoo.com" [message_dated "9 Feb"] 0)
           "b@yahoo.com:all").
  vm_compute. discriminate.
Defined.

(** ** Merging the folders *)

Section Merge.

Context `{Lib : Library}.

Lemma fetch_folders_concat (srv : Server) (folders : list string) :
  (fetch_folders srv folders).1
  = concat (map (fun f => (fetch_messages_from_folder srv f 30).1) folders).
Proof.
  induction folders as [|f rest IH]; [reflexivity|]. cbn [fetch_folders map concat].
  destruct (fetch_messages_from_folder srv f 30) as [ms evs].
  destruct (fetch_folders srv rest) as [more evs']. cbn [fst] in *.
  now rewrite IH.
Qed.

Lemma fetch_folders_length (srv : Server) (folders : list string) :
  length (fetch_folders srv folders).1 <= 30 * length folders.
Proof.
  rewrite fetch_folders_concat.
  induction folders as [|f rest IH]; [cbn; lia|]. cbn [map concat length].
  rewrite length_app.
  pose proof (proj1 (fetch_messages_from_folder_positive_limit srv f 30
                       ltac:(lia))).
  lia.
Qed.

Lemma folders_to_check_length
    (listing : pyres (string * list (option string))) :
  length (folders_to_check listing) <= 7.
Proof.
  unfold folders_to_check. destruct listing as [[status items]|e]; [|cbn; lia].
  destruct (String.eqb status "OK"); [|cbn; lia].
  destruct (py_mapM folder_name_of items) as [names|e]; [|cbn; lia].
  pose proof (length_filter (fun f => f ∈ names) common_folders) as Hf.
  destruct (filter (fun f => f ∈ names) common_folders) as [|g l].
  - rewrite length_take. lia.
  - exact Hf.
Qed.

(** The result of a call that was not answered from the cache. *)
Lemma fetch_messages_from_account_result (srv : Server) (t_get t_set : Q)
    (email_address password : string) (w w' : World) (msgs : list Message) :
  truthy (get_from_cache t_get (get_cache_key email_address "all")
            (memory_cache w)).1 = false ->
  fetch_messages_from_account srv t_get t_set email_address password w
  = (Ok msgs, w') ->
  msgs = sort_by_date_desc
           (fetch_folders srv (folders_to_check (list_folders srv))).1.
Proof.
  intros Hmiss Hrun.
  rewrite (fetch_messages_from_account_miss _ _ _ _ _ _ Hmiss) in Hrun.
  destruct (connect_to_imap srv email_address password) as [[[]|e] evs];
    [|discriminate].
  cbn zeta in Hrun.
  destruct (sort_messages _) as [sorted|e] eqn:Hsort; [|discriminate].
  injection Hrun as <- _. exact (sort_messages_Ok _ _ Hsort).
Qed.

End Merge.

(** X8: the list returned by a call that was not answered from the cache
    holds exactly the messages of the scanned folders, each as often as
    the folders yield it: it is a permutation of the folder results put
    end to end. *)
Theorem aggregate_is_permutation_of_folder_results `{Lib : Library}
    (srv : Server) (t_get t_set : Q) (email_address password : string)
    (w w' : World) (msgs : list Message) :
  truthy (get_from_cache t_get (get_cache_key email_address "all")
            (memory_cache w)).1 = false ->
  fetch_messages_from_account srv t_get t_set email_address password w
  = (Ok msgs, w') ->
  Permutation msgs
    (concat (map (fun f => (fetch_messages_from_folder srv f 30).1)
               (folders_to_check (list_folders srv)))).
Proof.
  intros Hmiss Hrun.
  rewrite (fetch_messages_from_account_result _ _ _ _ _ _ _ _ Hmiss Hrun).
  rewrite <- fetch_folders_concat. apply sort_by_date_desc_Permutation.
Qed.

Lemma aggregate_is_permutation_of_folder_results_witness :
  match (@fetch_messages_from_account ascii_library two_folder_server 0 0
           "a@gmail.com" "pw" empty_world).1 with
  | Ok msgs =>
      Permutation msgs
        (concat (map (fun f => (@fetch_messages_from_folder ascii_library
                                  two_folder_server f 30).1)
                   (@folders_to_check ascii_library
                      (list_folders two_folder_server))))
  | Raise _ => False
  end.
Proof.
  destruct (@fetch_messages_from_account ascii_library two_folder_server 0 0
              "a@gmail.com" "pw" empty_world) as [[msgs|e] w'] eqn:Hrun.
  - cbn [fst].
    refine (@aggregate_is_permutation_of_folder_results ascii_library
              two_folder_server 0 0 "a@gmail.com" "pw" empty_world w' msgs
              _ Hrun).
    reflexivity.
  - vm_compute in Hrun. discriminate Hrun.
Defined.

(** X9: a call that was not answered from the cache returns at most 210
    messages: at most seven folders are scanned, with at most 30 messages
    each. *)
Theorem aggregate_returns_at_most_210 `{Lib : Library} (srv : Server)
    (t_get t_set : Q) (email_address password : string) (w w' : World)
    (msgs : list Message) :
  truthy (get_from_cache t_get (get_cache_key email_address "all")
            (memory_cache w)).1 = false ->
  fetch_messages_from_account srv t_get t_set email_address password w
  = (Ok msgs, w') ->
  length msgs <= 210.
Proof.
  intros Hmiss Hrun.
  rewrite (fetch_messages_from_account_result _ _ _ _ _ _ _ _ Hmiss Hrun).
  rewrite (Permutation_length (sort_by_date_desc_Permutation _)).
  pose proof (fetch_folders_length srv (folders_to_check (list_folders srv))).
  pose proof (folders_to_check_length (list_folders srv)). lia.
Qed.

Lemma aggregate_returns_at_most_210_witness :
  match (@fetch_messages_from_account ascii_library sample_server 0 0
           "a@gmail.com" "pw" empty_world).1 with
  | Ok msgs => length msgs <= 210
  | Raise _ => False
  end.
Proof.
  destruct (@fetch_messages_from_account ascii_library sample_server 0 0
              "a@gmail.com" "pw" empty_world) as [[msgs|e] w'] eqn:Hrun.
  - cbn [fst].
    refine (@aggregate_returns_at_most_210 ascii_library sample_server 0 0
              "a@gmail.com" "pw" empty_world w' msgs _ Hrun).
    reflexivity.
  - vm_compute in Hrun. discriminate Hrun.
Defined.

(** X10: a folder that cannot be selected is skipped without harm: the
    messages of the folders before it and after it are merged as if it
    were not in the list. *)
Theorem unselectable_folder_is_skipped `{Lib : Library} (srv : Server)
    (before after : list string) (bad : string) :
  (forall status, select srv bad = Ok status -> status <> "OK") ->
  (fetch_folders srv (before ++ bad :: after)).1
  = ((fetch_folders srv before).1 ++ (fetch_folders srv after).1)%list.
Proof.
  intros Hbad. rewrite !fetch_folders_concat, map_app, concat_app.
  cbn [map concat].
  now rewrite (fetch_messages_from_folder_select_fails srv bad 30 Hbad).
Qed.

Lemma unselectable_folder_is_skipped_witness :
  (@fetch_folders ascii_library sample_server (["INBOX"] ++ "SPAM" :: ["INBOX"])).1
  = ((@fetch_folders ascii_library sample_server ["INBOX"]).1
       ++ (@fetch_folders ascii_library sample_server ["INBOX"]).1)%list.
Proof.
  apply (@unselectable_folder_is_skipped ascii_library sample_server
           ["INBOX"] ["INBOX"] "SPAM").
  intros status Hst. vm_compute in Hst. injection Hst as <-. discriminate.
Defined.

(** ** The folder fetcher: further properties *)

(** X11: with a limit of at least one, a folder that is selected and
    searched with status OK yields the messages of the last [limit]
    identifiers of the search answer, the most recent first, an
    identifier whose fetch or parsing fails being left out; and one fetch
    is made for each of these identifiers, in that order. *)
Theorem folder_messages_most_recent_first `{Lib : Library} (srv : Server)
    (f raw : string) (limit : Z) :
  (0 < limit)%Z ->
  select srv f = Ok "OK" ->
  search srv f = Ok ("OK", Some raw) ->
  let ids := Py.words Py.is_space_bytes raw in
  let kept := drop (length ids - Z.to_nat limit) ids in
  (fetch_messages_from_folder srv f limit).1
  = omap (process_message srv f) (rev kept)
  /\ (fetch_messages_from_folder srv f limit).2
     = ([EvSelect f; EvSearch f] ++ map (EvFetch f) (rev kept))%list.
Proof.
  intros Hpos Hsel Hsearch ids kept.
  rewrite (fetch_messages_from_folder_ok _ _ _ _ Hsel Hsearch).
  fold ids. rewrite (recent_ids_positive _ _ Hpos). split; reflexivity.
Qed.

Lemma folder_messages_most_recent_first_witness :
  map uid (@fetch_messages_from_folder ascii_library sample_server "INBOX" 2).1
  = ["3"; "2"].
Proof.
  rewrite (proj1 (@folder_messages_most_recent_first ascii_library
                    sample_server "INBOX" "1 2 3" 2 ltac:(lia) eq_refl eq_refl)).
  reflexivity.
Defined.

(** ** Snippet extraction: further properties *)

Lemma scan_parts_passed_over `{Lib : Library} (pre rest : list Part) :
  Forall part_passed_over pre ->
  scan_parts (pre ++ rest) = scan_parts rest.
Proof.
  induction 1 as [|part pre Hp _ IH]; [reflexivity|].
  cbn [app scan_parts]. destruct Hp as [Hct | Hpay].
  - now rewrite Hct.
  - destruct (String.eqb _ _); [|exact IH].
    destruct (payload part) as [[[|c b]|]|]; try exact IH.
    now specialize (Hpay c b).
Qed.

(** X12: in a multipart message the snippet comes from the first part of
    type text/plain that has a non-empty payload: the parts before it
    that are of another type, or whose payload is absent, empty or
    unreadable, are passed over, and the parts after it are not looked
    at. *)
Theorem snippet_comes_from_first_text_part `{Lib : Library}
    (em : EmailMessage) (pre post : list Part) (part : Part) (c : ascii)
    (b : string) :
  is_multipart em = true ->
  walk em = (pre ++ part :: post)%list ->
  Forall part_passed_over pre ->
  content_type part = "text/plain" ->
  payload part = Ok (Some (String c b)) ->
  raw_snippet em = Py.take 200 (utf8_ignore (String c b)).
Proof.
  intros Hmp Hwalk Hpre Hct Hpay. unfold raw_snippet.
  rewrite Hmp, Hwalk, (scan_parts_passed_over _ _ Hpre).
  cbn [scan_parts]. now rewrite Hct, Hpay.
Qed.

Lemma snippet_comes_from_first_text_part_witness :
  @raw_snippet ascii_library
    {| hdr_From := None; hdr_Subject := None; hdr_Date := None;
       is_multipart := true;
       walk := [html_part "<p>hi</p>"; text_part EmptyString;
                text_part "hi there"; text_part "second"];
       get_payload := Ok None |}
  = Py.take 200 (@utf8_ignore ascii_library "hi there").
Proof.
  apply (@snippet_comes_from_first_text_part ascii_library _
           [html_part "<p>hi</p>"; text_part EmptyString]
           [text_part "second"] (text_part "hi there") "h" "i there");
    try reflexivity.
  constructor; [left; reflexivity|].
  constructor; [right; intros c b; discriminate|].
  constructor.
Defined.

(** ** Address extraction: further properties *)

Lemma str_app_assoc (a b c : string) : (a +:+ b) +:+ c = a +:+ (b +:+ c).
Proof.
  induction a as [|d a IH]; [reflexivity|]. rewrite !str_app_cons. now rewrite IH.
Qed.

Lemma has_char_app (c : ascii) (a b : string) :
  Py.has_char c (a +:+ b) = Py.has_char c a || Py.has_char c b.
Proof.
  induction a as [|d a IH]; [reflexivity|]. rewrite str_app_cons.
  cbn [Py.has_char]. now rewrite IH, orb_assoc.
Qed.

Lemma until_gt_app (addr tail : string) :
  Py.has_char ">" addr = false ->
  until_gt (addr +:+ String ">" tail) = Some addr.
Proof.
  induction addr as [|c addr IH]; intros Hno; [reflexivity|].
  cbn [Py.has_char] in Hno. apply orb_false_iff in Hno as [Hc Hno].
  rewrite str_app_cons. cbn [until_gt]. rewrite Ascii.eqb_sym, Hc.
  now rewrite (IH Hno).
Qed.

Lemma search_angle_skip (name rest : string) :
  Py.has_char "<" name = false ->
  search_angle (name +:+ rest) = search_angle rest.
Proof.
  induction name as [|c name IH]; intros Hno; [reflexivity|].
  cbn [Py.has_char] in Hno. apply orb_false_iff in Hno as [Hc Hno].
  rewrite str_app_cons. cbn [search_angle]. rewrite Ascii.eqb_sym, Hc.
  exact (IH Hno).
Qed.

(** X13: for a sender field made of a display part without an opening
    bracket, then an address between angle brackets that is not empty and
    holds no closing bracket, then anything, the extracted address is
    that address with the whitespace at its two ends removed. *)
Theorem extract_bracketed_address (name addr tail : string) :
  Py.has_char "<" name = false ->
  Py.has_char ">" addr = false ->
  addr <> EmptyString ->
  extract_email_address (name +:+ String "<" (addr +:+ String ">" tail))
  = Py.strip Py.is_space addr.
Proof.
  intros Hname Haddr Hne. unfold extract_email_address.
  rewrite !has_char_app. cbn [Py.has_char]. rewrite !has_char_app.
  cbn [Py.has_char]. change (Ascii.eqb "<" "<") with true.
  change (Ascii.eqb ">" ">") with true. rewrite !orb_true_r. cbn [andb].
  rewrite (search_angle_skip _ _ Hname). cbn [search_angle].
  change (Ascii.eqb "<" "<") with true. cbv iota.
  rewrite (until_gt_app _ _ Haddr).
  destruct addr as [|c addr]; [congruence | reflexivity].
Qed.

Lemma extract_bracketed_address_witness :
  extract_email_address
    ("Alice B. " +:+ String "<" (" a@x.com " +:+ String ">" " (work)"))
  = Py.strip Py.is_space " a@x.com ".
Proof.
  apply (extract_bracketed_address "Alice B. " " a@x.com " " (work)");
    [reflexivity | reflexivity | discriminate].
Defined.

Lemma substring_of_refl (s : string) : substring_of s s.
Proof. exists EmptyString, EmptyString. now rewrite str_app_nil_r. Qed.

Lemma substring_of_trans (a b c : string) :
  substring_of a b -> substring_of b c -> substring_of a c.
Proof.
  intros [p1 [q1 ->]] [p2 [q2 ->]]. exists (p2 +:+ p1), (q1 +:+ q2).
  now rewrite !str_app_assoc.
Qed.

Lemma substring_of_cons (a s : string) (c : ascii) :
  substring_of a s -> substring_of a (String c s).
Proof. intros [p [q ->]]. exists (String c p), q. reflexivity. Qed.

Lemma lstrip_substring (p : ascii -> bool) (s : string) :
  substring_of (Py.lstrip p s) s.
Proof.
  induction s as [|c s IH]; [apply substring_of_refl|]. cbn [Py.lstrip].
  destruct (p c); [now apply substring_of_cons | apply substring_of_refl].
Qed.

Lemma rstrip_prefix (p : ascii -> bool) (s : string) :
  exists post, s = Py.rstrip p s +:+ post.
Proof.
  induction s as [|c s [post IH]]; [exists EmptyString; reflexivity|].
  cbn [Py.rstrip]. destruct (Py.rstrip p s) as [|d r].
  - destruct (p c).
    + exists (String c s). reflexivity.
    + exists s. reflexivity.
  - exists post. rewrite str_app_cons. now rewrite <- IH.
Qed.

Lemma strip_substring (p : ascii -> bool) (s : string) :
  substring_of (Py.strip p s) s.
Proof.
  unfold Py.strip. apply (substring_of_trans _ (Py.lstrip p s));
    [|apply lstrip_substring].
  destruct (rstrip_prefix p (Py.lstrip p s)) as [post Hpost].
  exists EmptyString, post. exact Hpost.
Qed.

Lemma until_gt_prefix (s g : string) :
  until_gt s = Some g -> exists post, s = g +:+ post.
Proof.
  revert g. induction s as [|c s IH]; intros g; cbn [until_gt]; [discriminate|].
  destruct (Ascii.eqb c ">").
  - intros [= <-]. eauto.
  - destruct (until_gt s) as [g'|]; [|discriminate]. intros [= <-].
    destruct (IH g' eq_refl) as [post ->]. exists post. reflexivity.
Qed.

Lemma search_angle_substring (s g : string) :
  search_angle s = Some g -> substring_of g s.
Proof.
  induction s as [|c s IH]; cbn [search_angle]; [discriminate|].
  destruct (Ascii.eqb c "<").
  - destruct (until_gt s) as [[|d g']|] eqn:Hu;
      try (intros Hs; apply substring_of_cons, IH, Hs).
    intros [= <-]. apply until_gt_prefix in Hu as [post ->].
    exists (String c EmptyString), post. reflexivity.
  - intros Hs. now apply substring_of_cons, IH.
Qed.

(** The extracted address always occurs in the sender field. *)
Lemma extract_email_address_substring (s : string) :
  substring_of (extract_email_address s) s.
Proof.
  unfold extract_email_address.
  destruct (Py.has_char "<" s && Py.has_char ">" s); [|apply strip_substring].
  destruct (search_angle s) as [g|] eqn:Hg; [|apply strip_substring].
  apply (substring_of_trans _ g); [apply strip_substring|].
  now apply search_angle_substring.
Qed.

Lemma contains_substring (t a s : string) :
  Py.contains t a = true -> substring_of a s -> Py.contains t s = true.
Proof.
  intros Ht Has. apply contains_spec in Ht.
  apply contains_spec. exact (substring_of_trans _ _ _ Ht Has).
Qed.

(** X14: the address test of the search never adds a match: a message is
    kept exactly when the lower-cased term occurs in its lower-cased
    sender field, so the search result is the aggregator's list filtered
    by that single test. *)
Theorem search_address_test_is_redundant (sender_term : string) (m : Message) :
  sender_matches (Py.lower sender_term) m
  = Py.contains (Py.lower sender_term) (Py.lower (sender m)).
Proof.
  unfold sender_matches.
  destruct (Py.contains (Py.lower sender_term) (Py.lower (sender m))) eqn:Hs;
    [reflexivity|]. cbn [orb].
  destruct (Py.contains _ (Py.lower (extract_email_address _))) eqn:Ha;
    [|reflexivity].
  rewrite <- extract_email_address_lower, lower_idem in Ha.
  rewrite <- Hs. symmetry.
  exact (contains_substring _ _ _ Ha (extract_email_address_substring _)).
Qed.

(** ** Header decoder: further properties *)

Lemma string_concat_cons (t : string) (ts : list string) :
  String.concat EmptyString (t :: ts) = t +:+ String.concat EmptyString ts.
Proof. destruct ts; cbn; [now rewrite str_app_nil_r | reflexivity]. Qed.

Section Decoder.

Context `{Lib : Library}.

Lemma decode_parts_all (parts : list (HeaderPart * option string))
    (texts : list string) (acc : string) :
  Forall2 chunk_decodes parts texts ->
  decode_parts parts acc = Ok (acc +:+ String.concat EmptyString texts).
Proof.
  intros Hall. revert acc.
  induction Hall as [|chunk t parts texts Hc _ IH]; intros acc.
  - cbn. now rewrite str_app_nil_r.
  - rewrite string_concat_cons, <- str_app_assoc.
    destruct chunk as [[b|u] [[|c enc]|]]; cbn [decode_parts chunk_decodes] in *;
      try (subst t; apply IH).
    rewrite Hc. cbn. apply IH.
Qed.

Lemma decode_parts_failure (parts : list (HeaderPart * option string))
    (b enc : string) (c : ascii) (e : exn) (acc : string) :
  (PartBytes b, Some (String c enc)) ∈ parts ->
  bytes_decode (String c enc) b = Raise e ->
  exists e', decode_parts parts acc = Raise e'.
Proof.
  intros Hin Hfail. revert acc.
  induction parts as [|chunk parts IH]; intros acc; [inversion Hin|].
  apply elem_of_cons in Hin as [<- | Hin].
  - cbn [decode_parts]. rewrite Hfail. cbn. eauto.
  - destruct chunk as [[b'|u] [[|c' enc']|]]; cbn [decode_parts];
      try (apply IH; assumption).
    destruct (bytes_decode (String c' enc') b') as [t|e']; cbn; [|eauto].
    now apply IH.
Qed.

End Decoder.

Lemma string_concat_app (l1 l2 : list string) :
  String.concat EmptyString (l1 ++ l2)
  = String.concat EmptyString l1 +:+ String.concat EmptyString l2.
Proof.
  induction l1 as [|t l1 IH]; [reflexivity|].
  cbn [app]. rewrite !string_concat_cons, IH. now rewrite str_app_assoc.
Qed.

(** C9: [decode_mime_words] returns a string on every input and never
    raises.  On a header that the library reports as one undecoded text
    chunk (a plain string without encoded words) the result is the input.
    When the library splits the header into chunks and every chunk with a
    charset decodes, the result is the texts of the chunks put end to end:
    a bytes chunk with a declared charset contributes its bytes decoded
    in that charset, a bytes chunk without a charset contributes its
    bytes decoded as UTF-8 with the invalid ones ignored, a text chunk
    contributes itself.  When anything raises, be it the library's
    splitting or the decoding of one chunk, the result is the input
    itself. *)
Theorem C9_decode_mime_words_total `{Lib : Library} (s : string) :
  (exists r, decode_mime_words s = Ok r)
  /\ (decode_header s = Ok [(PartStr s, None)] -> decode_mime_words s = Ok s)
  /\ (forall parts texts,
        decode_header s = Ok parts ->
        Forall2 chunk_decodes parts texts ->
        decode_mime_words s = Ok (String.concat EmptyString texts))
  /\ (forall pre post texts_pre texts_post b,
        decode_header s = Ok (pre ++ (PartBytes b, None) :: post)%list ->
        Forall2 chunk_decodes pre texts_pre ->
        Forall2 chunk_decodes post texts_post ->
        decode_mime_words s
        = Ok (String.concat EmptyString texts_pre +:+ utf8_ignore b
                +:+ String.concat EmptyString texts_post))
  /\ (forall pre post texts_pre texts_post b c enc t,
        decode_header s
        = Ok (pre ++ (PartBytes b, Some (String c enc)) :: post)%list ->
        bytes_decode (String c enc) b = Ok t ->
        Forall2 chunk_decodes pre texts_pre ->
        Forall2 chunk_decodes post texts_post ->
        decode_mime_words s
        = Ok (String.concat EmptyString texts_pre +:+ t
                +:+ String.concat EmptyString texts_post))
  /\ (forall e, decode_header s = Raise e -> decode_mime_words s = Ok s)
  /\ (forall parts b enc c e,
        decode_header s = Ok parts ->
        (PartBytes b, Some (String c enc)) ∈ parts ->
        bytes_decode (String c enc) b = Raise e ->
        decode_mime_words s = Ok s)
  /\ (forall e, decode_mime_words_try s = Raise e -> decode_mime_words s = Ok s).
Proof.
  assert (Hall : forall parts texts,
             decode_header s = Ok parts ->
             Forall2 chunk_decodes parts texts ->
             decode_mime_words s = Ok (String.concat EmptyString texts)).
  { intros parts texts Hparts Hdec.
    unfold decode_mime_words, decode_mime_words_try. rewrite Hparts.
    cbn [mbind pyres_bind]. now rewrite (decode_parts_all _ _ _ Hdec). }
  split; [|split; [|split; [|split; [|split; [|split; [|split]]]]]].
  - unfold decode_mime_words. destruct (decode_mime_words_try s); eauto.
  - intros Hplain. unfold decode_mime_words, decode_mime_words_try.
    rewrite Hplain. reflexivity.
  - exact Hall.
  - intros pre post texts_pre texts_post b Hparts Hpre Hpost.
    rewrite (Hall _ (texts_pre ++ utf8_ignore b :: texts_post)%list Hparts).
    + now rewrite string_concat_app, string_concat_cons.
    + apply Forall2_app; [assumption|]. constructor; [reflexivity | assumption].
  - intros pre post texts_pre texts_post b c enc t Hparts Ht Hpre Hpost.
    rewrite (Hall _ (texts_pre ++ t :: texts_post)%list Hparts).
    + now rewrite string_concat_app, string_concat_cons.
    + apply Forall2_app; [assumption|]. constructor; [exact Ht | assumption].
  - intros e He. unfold decode_mime_words, decode_mime_words_try.
    now rewrite He.
  - intros parts b enc c e Hparts Hin Hfail.
    unfold decode_mime_words, decode_mime_words_try. rewrite Hparts.
    cbn [mbind pyres_bind].
    destruct (decode_parts_failure parts b enc c e EmptyString Hin Hfail)
      as [e' ->].
    reflexivity.
  - intros e He. unfold decode_mime_words. now rewrite He.
Qed.

Lemma C9_decode_mime_words_total_witness :
  @decode_mime_words three_chunk_library "abc" = Ok "Re: [abc]<abc>".
Proof.
  apply (proj1 (proj2 (proj2
           (@C9_decode_mime_words_total three_chunk_library "abc")))
           [(PartStr "Re: ", None); (PartBytes "abc", None);
            (PartBytes "abc", Some "utf-8")]
           ["Re: "; "[abc]"; "<abc>"]).
  - reflexivity.
  - constructor; [reflexivity|]. constructor; [reflexivity|].
    constructor; [reflexivity | constructor].
Defined.



(** X16: decoding is all or nothing: when one chunk of the header has a
    charset in which its bytes do not decode, the result is the raw
    header itself, not the chunks decoded so far. *)
Theorem decode_mime_words_failure_returns_input `{Lib : Library} (s : string)
    (parts : list (HeaderPart * option string)) (b enc : string) (c : ascii)
    (e : exn) :
  decode_header s = Ok parts ->
  (PartBytes b, Some (String c enc)) ∈ parts ->
  bytes_decode (String c enc) b = Raise e ->
  decode_mime_words s = Ok s.
Proof.
  intros Hparts Hin Hfail. unfold decode_mime_words, decode_mime_words_try.
  rewrite Hparts. cbn.
  destruct (decode_parts_failure parts b enc c e EmptyString Hin Hfail)
    as [e' ->].
  reflexivity.
Qed.

Lemma decode_mime_words_failure_returns_input_witness :
  @decode_mime_words unknown_charset_library "=?x-unknown?q?hello?="
  = Ok "=?x-unknown?q?hello?=".
Proof.
  apply (@decode_mime_words_failure_returns_input unknown_charset_library
           "=?x-unknown?q?hello?="
           [(PartStr "Re: ", None);
            (PartBytes "=?x-unknown?q?hello?=", Some "x-unknown")]
           "=?x-unknown?q?hello?=" "-unknown" "x"
           (PyError "LookupError" "unknown encoding")).
  - reflexivity.
  - right. left.
  - reflexivity.
Defined.

(** ** Folder names *)

Lemma split_without_separator (sep s : string) :
  Py.contains sep s = false -> Py.split sep s = [s].
Proof.
  unfold Py.split. induction s as [|c s IH]; intros Hno; [reflexivity|].
  cbn [Py.contains] in Hno. apply orb_false_iff in Hno as [Hp Hno].
  cbn [Py.split_go]. now rewrite Hp, (IH Hno).
Qed.

Lemma list_separator_prefix_false (c : ascii) (s : string) :
  (forall d s', s = String d s' -> Ascii.eqb dquote d = false) ->
  s <> EmptyString ->
  String.prefix list_separator (String c s) = false.
Proof.
  intros Hhead Hne. unfold list_separator. rewrite prefix_cons.
  destruct s as [|d s']; [congruence|].
  rewrite prefix_cons, (Hhead d s' eq_refl). cbn [andb].
  apply andb_false_r.
Qed.

Lemma split_flags (flags rest : string) :
  Py.has_char dquote flags = false ->
  Py.split list_separator (flags +:+ list_separator +:+ rest)
  = flags :: Py.split list_separator rest.
Proof.
  unfold Py.split. induction flags as [|c flags IH]; intros Hno.
  - rewrite str_app_nil.
    assert (Hp : String.prefix list_separator (list_separator +:+ rest) = true)
      by (apply prefix_spec; eauto).
    change (list_separator +:+ rest)
      with (String " " (String dquote (String "/" (String dquote
              (String " " rest))))) in *.
    cbn [Py.split_go]. rewrite Hp. reflexivity.
  - cbn [Py.has_char] in Hno. apply orb_false_iff in Hno as [Hc Hno].
    rewrite str_app_cons. cbn [Py.split_go].
    rewrite list_separator_prefix_false.
    + now rewrite (IH Hno).
    + intros d s' Heq. destruct flags as [|d' flags'].
      * rewrite str_app_nil in Heq. injection Heq as <- _. reflexivity.
      * rewrite str_app_cons in Heq. injection Heq as <- _.
        cbn [Py.has_char] in Hno. now apply orb_false_iff in Hno as [Hd _].
    + destruct flags; discriminate.
Qed.

Lemma list_separator_not_before_quote (name : string) :
  Py.has_char dquote name = false ->
  Py.contains list_separator (name +:+ String dquote EmptyString) = false.
Proof.
  induction name as [|c name IH]; intros Hno; [reflexivity|].
  cbn [Py.has_char] in Hno. apply orb_false_iff in Hno as [Hc Hno].
  rewrite str_app_cons. cbn [Py.contains]. rewrite (IH Hno), orb_false_r.
  destruct name as [|d name].
  - rewrite str_app_nil. unfold list_separator. rewrite !prefix_cons.
    cbn. now rewrite !andb_false_r.
  - apply list_separator_prefix_false; [|discriminate].
    intros d' s' Heq. rewrite str_app_cons in Heq. injection Heq as <- _.
    cbn [Py.has_char] in Hno. now apply orb_false_iff in Hno as [Hd _].
Qed.

Lemma rstrip_quoted (name : string) :
  Py.has_char dquote name = false ->
  Py.rstrip (Ascii.eqb dquote) (name +:+ String dquote EmptyString) = name.
Proof.
  induction name as [|c name IH]; intros Hno; [reflexivity|].
  cbn [Py.has_char] in Hno. apply orb_false_iff in Hno as [Hc Hno].
  rewrite str_app_cons. cbn [Py.rstrip]. rewrite (IH Hno).
  destruct name; [now rewrite Hc | reflexivity].
Qed.

Lemma strip_quoted (name : string) :
  Py.has_char dquote name = false ->
  Py.strip (Ascii.eqb dquote) (String dquote (name +:+ String dquote EmptyString))
  = name.
Proof.
  intros Hno. unfold Py.strip. cbn [Py.lstrip].
  change (Ascii.eqb dquote dquote) with true. cbv iota.
  destruct name as [|c name]; [reflexivity|].
  rewrite str_app_cons. cbn [Py.lstrip].
  pose proof Hno as Hno'. cbn [Py.has_char] in Hno'.
  apply orb_false_iff in Hno' as [Hc _]. rewrite Hc.
  rewrite <- str_app_cons. now apply rstrip_quoted.
Qed.

(** X17: a listing line made of flags without a double quote, the
    separator (space, quoted slash, space) and a folder name between
    double quotes, the name holding no double quote, is read back as that
    name, provided the line decodes as UTF-8 to itself. *)
Theorem folder_name_of_quoted_line `{Lib : Library} (flags name : string) :
  let line :=
    flags +:+ list_separator
      +:+ String dquote (name +:+ String dquote EmptyString) in
  Py.has_char dquote flags = false ->
  Py.has_char dquote name = false ->
  bytes_decode "utf-8" line = Ok line ->
  folder_name_of (Some line) = Ok name.
Proof.
  intros line Hflags Hname Hdec. unfold folder_name_of. rewrite Hdec.
  cbn [mbind pyres_bind]. unfold line. rewrite (split_flags _ _ Hflags).
  rewrite split_without_separator.
  - cbn [last default from_option id]. now rewrite (strip_quoted _ Hname).
  - cbn [Py.contains]. rewrite (list_separator_not_before_quote _ Hname).
    unfold list_separator. rewrite prefix_cons. reflexivity.
Qed.

Lemma folder_name_of_quoted_line_witness :
  @folder_name_of ascii_library
    (Some ("(\HasNoChildren \Sent)" +:+ list_separator
             +:+ String dquote ("Sent Items" +:+ String dquote EmptyString)))
  = Ok "Sent Items".
Proof.
  apply (@folder_name_of_quoted_line ascii_library
           "(\HasNoChildren \Sent)" "Sent Items"); reflexivity.
Defined.

(** ** Cache store: further properties *)

(** X18: storing under a key the cache does not hold and reading that key
    once 600 seconds or more have passed gives nothing and leaves the
    cache exactly as it was before the store. *)
Theorem cache_store_then_expire_restores (k : string) (v : list Message)
    (t0 t : Q) (cache : gmap string CacheEntry) :
  cache !! k = None ->
  (600 <= t - t0)%Q ->
  get_from_cache t k (set_cache t0 k v cache) = (None, cache).
Proof.
  intros Hk Hold.
  rewrite (get_from_cache_expired t k {| data := v; timestamp := t0 |});
    [| apply lookup_insert_eq | exact Hold].
  unfold set_cache. now rewrite delete_insert_id.
Qed.

Lemma cache_store_then_expire_restores_witness :
  get_from_cache 700 "k" (set_cache 100 "k" [message_dated "9 Feb"] ∅)
  = (None, ∅).
Proof.
  apply (cache_store_then_expire_restores "k" [message_dated "9 Feb"] 100 700 ∅).
  - reflexivity.
  - vm_compute. discriminate.
Defined.

(** X19: the cache size reported by the health check counts every stored
    entry whatever its age: a store under a new key adds one, a store
    under a key already held adds none, a read of an expired entry takes
    one away, and a read of a fresh or absent entry changes nothing. *)
Theorem health_check_cache_size (now_iso k : string) (v : list Message)
    (t : Q) (w : World) :
  let size_after cache :=
    cache_size (health_check now_iso
                  {| memory_cache := cache; trace := trace w |}) in
  (memory_cache w !! k = None ->
   size_after (set_cache t k v (memory_cache w))
   = S (cache_size (health_check now_iso w)))
  /\ (is_Some (memory_cache w !! k) ->
      size_after (set_cache t k v (memory_cache w))
      = cache_size (health_check now_iso w))
  /\ (forall entry,
        memory_cache w !! k = Some entry ->
        (600 <= t - timestamp entry)%Q ->
        S (size_after (get_from_cache t k (memory_cache w)).2)
        = cache_size (health_check now_iso w))
  /\ (forall entry,
        memory_cache w !! k = Some entry ->
        (t - timestamp entry < 600)%Q ->
        size_after (get_from_cache t k (memory_cache w)).2
        = cache_size (health_check now_iso w))
  /\ (memory_cache w !! k = None ->
      size_after (get_from_cache t k (memory_cache w)).2
      = cache_size (health_check now_iso w)).
Proof.
  intros size_after. unfold size_after, health_check. cbn [cache_size memory_cache].
  repeat split.
  - intros Hk. now apply map_size_insert_None.
  - intros Hk. now apply map_size_insert_Some.
  - intros entry Hk Hold. rewrite (get_from_cache_expired _ _ _ _ Hk Hold).
    cbn [snd]. rewrite map_size_delete, Hk.
    assert (size (memory_cache w) <> 0).
    { intros Hz. apply map_size_empty_iff in Hz. rewrite Hz in Hk.
      now rewrite lookup_empty in Hk. }
    cbn. lia.
  - intros entry Hk Hfresh. now rewrite (get_from_cache_fresh _ _ _ _ Hk Hfresh).
  - intros Hk. now rewrite (get_from_cache_absent _ _ _ Hk).
Qed.

Lemma health_check_cache_size_witness :
  S (cache_size
       (health_check "2026-01-01T00:00:00+00:00"
          {| memory_cache :=
               (get_from_cache 700 "b@yahoo.com:all"
                  (memory_cache
                     (@cached_world ascii_library "b@yahoo.com"
                        [message_dated "9 Feb"] 0))).2;
             trace := [] |}))
  = cache_size
      (health_check "2026-01-01T00:00:00+00:00"
         (@cached_world ascii_library "b@yahoo.com" [message_dated "9 Feb"] 0)).
Proof.
  apply (proj1 (proj2 (proj2
           (health_check_cache_size "2026-01-01T00:00:00+00:00"
              "b@yahoo.com:all" [] 700
              (@cached_world ascii_library "b@yahoo.com"
                 [message_dated "9 Feb"] 0))))
           {| data := [message_dated "9 Feb"]; timestamp := 0 |}).
  - apply lookup_insert_eq.
  - vm_compute. discriminate.
Defined.

(** X20: with a limit of at least one, a folder yields at most [limit]
    messages, each tagged with the name of the folder, whatever the
    server answers to select, search and fetch. *)
Theorem folder_yields_at_most_limit `{Lib : Library} (srv : Server)
    (f : string) (limit : Z) (m : Message) :
  (0 < limit)%Z ->
  (Z.of_nat (length (fetch_messages_from_folder srv f limit).1) <= limit)%Z
  /\ (m ∈ (fetch_messages_from_folder srv f limit).1 -> folder m = f).
Proof.
  intros Hpos.
  destruct (fetch_messages_from_folder_positive_limit srv f limit Hpos)
    as [Hlen Htag].
  split; [exact Hlen | apply Htag].
Qed.

Lemma folder_yields_at_most_limit_witness :
  (Z.of_nat (length (@fetch_messages_from_folder ascii_library sample_server
                       "INBOX" 2).1) <= 2)%Z.
Proof.
  apply (@folder_yields_at_most_limit ascii_library sample_server "INBOX" 2
           (message_dated "9 Feb")).
  lia.
Defined.

Lemma fresh_nonempty_cache_is_served_witness :
  @fetch_messages_from_account ascii_library
    (refusing_server (PyError "error" "AUTHENTICATIONFAILED")) 599 599
    "b@yahoo.com" "any password"
    (@cached_world ascii_library "b@yahoo.com" [message_dated "9 Feb"] 0)
  = (Ok [message_dated "9 Feb"],
     @cached_world ascii_library "b@yahoo.com" [message_dated "9 Feb"] 0).
Proof.
  apply (@fresh_nonempty_cache_is_served ascii_library
           (refusing_server (PyError "error" "AUTHENTICATIONFAILED")) 599 599
           "b@yahoo.com" "any password"
           {| data := [message_dated "9 Feb"]; timestamp := 0 |}
           (@cached_world ascii_library "b@yahoo.com" [message_dated "9 Feb"] 0)).
  - apply lookup_insert_eq.
  - reflexivity.
  - discriminate.
Defined.

(** ** Search and listing share the cache *)

(** X22: a search with a term caches the full list, not its matches.
    When the aggregation it runs is not answered from the cache and
    returns a non-empty list, the search returns the matches of that list
    and leaves the world of the aggregation; and in that world a listing
    made within 600 seconds of the store returns the full list, for any
    password and server, without touching the world. *)
Theorem search_caches_the_full_list `{Lib : Library} (srv srv' : Server)
    (t_get t_set t_get' t_set' : Q) (email_address password password' : string)
    (c : ascii) (term : string) (w w1 : World) (all : list Message) :
  truthy (get_from_cache t_get (get_cache_key email_address "all")
            (memory_cache w)).1 = false ->
  fetch_messages_from_account srv t_get t_set email_address password w
  = (Ok all, w1) ->
  all <> [] ->
  (t_get' - t_set < 600)%Q ->
  let searched :=
    search_messages srv t_get t_set email_address password
      (Some (String c term)) w in
  searched.1
  = Ok {| sr_messages :=
            filter (fun m => sender_matches (Py.lower (String c term)) m) all;
          sr_count :=
            length (filter (fun m => sender_matches (Py.lower (String c term)) m)
                      all);
          sr_search_term := String c term |}
  /\ memory_cache searched.2 !! get_cache_key email_address "all"
     = Some {| data := all; timestamp := t_set |}
  /\ get_messages srv' t_get' t_set' email_address password' searched.2
     = (Ok {| mr_messages := all; mr_count := length all |}, searched.2).
Proof.
  intros Hmiss Hrun Hne Hfresh searched. unfold searched.
  cbn [search_messages]. rewrite Hrun. cbn [fst snd].
  pose proof (fetch_messages_from_account_stores _ _ _ _ _ _ _ _ Hmiss Hrun)
    as Hk.
  split; [reflexivity|]. split; [exact Hk|]. unfold get_messages.
  now rewrite (fetch_messages_from_account_hit srv' t_get' t_set'
                 email_address password' w1 _ Hk Hfresh Hne).
Qed.

Lemma search_caches_the_full_list_witness :
  match (@fetch_messages_from_account ascii_library sample_server 0 0
           "a@gmail.com" "pw" empty_world).1 with
  | Ok all =>
      (@search_messages ascii_library sample_server 0 0 "a@gmail.com" "pw"
         (Some "bob") empty_world).1
      = Ok {| sr_messages := []; sr_count := 0; sr_search_term := "bob" |}
      /\ @get_messages ascii_library
           (refusing_server (PyError "error" "AUTHENTICATIONFAILED")) 10 10
           "a@gmail.com" "other"
           (@search_messages ascii_library sample_server 0 0 "a@gmail.com"
              "pw" (Some "bob") empty_world).2
         = (Ok {| mr_messages := all; mr_count := 3 |},
            (@search_messages ascii_library sample_server 0 0 "a@gmail.com"
               "pw" (Some "bob") empty_world).2)
  | Raise _ => False
  end.
Proof.
  destruct (@fetch_messages_from_account ascii_library sample_server 0 0
              "a@gmail.com" "pw" empty_world) as [[all|e] w1] eqn:Hrun.
  - cbn [fst].
    assert (Hall : all <> [] /\ length all = 3
                   /\ filter (fun m => @sender_matches (Py.lower "bob") m) all = []).
    { vm_compute in Hrun. injection Hrun as <- _.
      split; [discriminate | split; reflexivity]. }
    destruct Hall as [Hne [Hlen Hnone]].
    destruct (@search_caches_the_full_list ascii_library sample_server
                (refusing_server (PyError "error" "AUTHENTICATIONFAILED"))
                0 0 10 10 "a@gmail.com" "pw" "other" "b" "ob" empty_world
                w1 all eq_refl Hrun Hne eq_refl) as [Hs [_ Hg]].
    rewrite Hnone in Hs. rewrite Hlen in Hg. split; [exact Hs | exact Hg].
  - vm_compute in Hrun. discriminate Hrun.
Defined.

(** ** Stability of the sort *)

Lemma string_ltb_irrefl (d : string) : String.ltb d d = false.
Proof.
  unfold String.ltb. pose proof (String.compare_antisym d d) as Ha.
  destruct (String.compare d d); try reflexivity. discriminate Ha.
Qed.

Lemma filter_date_insert_desc (d : string) (m : Message) (l : list Message) :
  filter (fun x => date x = d) (insert_desc m l)
  = filter (fun x => date x = d) (m :: l).
Proof.
  induction l as [|y l IH]; [reflexivity|]. cbn [insert_desc].
  destruct (String.ltb (date m) (date y)) eqn:Hlt; [|reflexivity].
  rewrite filter_cons, IH, !filter_cons.
  destruct (decide (date y = d)) as [Hy|Hy]; [|reflexivity].
  destruct (decide (date m = d)) as [Hm|Hm]; [|reflexivity].
  rewrite Hy, Hm, string_ltb_irrefl in Hlt. discriminate Hlt.
Qed.

(** X23: the sort is stable: the messages that carry one given date
    string come out in the order in which they went in. *)
Theorem sort_by_date_desc_is_stable (d : string) (l : list Message) :
  filter (fun x => date x = d) (sort_by_date_desc l)
  = filter (fun x => date x = d) l.
Proof.
  induction l as [|m l IH]; [reflexivity|]. cbn [sort_by_date_desc foldr].
  rewrite filter_date_insert_desc, !filter_cons.
  unfold sort_by_date_desc in IH. now rewrite IH.
Qed.
